(** * Pizza-shop analysis: the classifier, the record loader, the message
      composer and the batch loop of [shop_analysis.py] and
      [extended_analysis.py], embedded as Rocq functions, with the
      properties of the specification stated over them.

    Conventions of the embedding.
    - A Python [str] is a Rocq [string]; texts that carry typographic
      characters (U+2011, U+2019, U+2014) are held in their UTF-8 encoding,
      exactly as they stand in the source files.
    - [None] is [None]; a value that may be [None] is an [option].
    - An exception is a value of [exn]; code that can raise returns
      [result A = exn + A].
    - The network and the clock are explicit: the batch loop runs in a
      state monad whose state carries the remote service and the log of
      calls made; an exception ends a run in the state it has reached.
    - Library functions whose full behaviour is not written out are
      parameters: [str.lower] beyond ASCII ([Str.Lower]), [urlparse]
      ([urlparse_netloc]), the opening of an output file ([open_w]), the
      text pandas prints for a Series ([py_str_series]).  The properties
      hold for every value of these parameters.
    - Writing a row to a file that has opened, printing and sleeping are
      taken to succeed. *)

From Stdlib Require Import String Ascii Bool Arith Lia List.
From stdpp Require Import base option list strings gmap.

Open Scope string_scope.

(* ===================================================================== *)
(** * Python string operations used by the sources *)
(* ===================================================================== *)

Module Str.

(** [c in chars] for a character and a string of characters. *)
Fixpoint contains_char (chars : string) (c : ascii) : bool :=
  match chars with
  | EmptyString => false
  | String d rest => Ascii.eqb c d || contains_char rest c
  end.

(** [s.lstrip(chars)]: drop leading characters for as long as they belong
    to the set [chars]; the argument is a set of characters, not a
    prefix. *)
Fixpoint lstrip_by (p : ascii -> bool) (s : string) : string :=
  match s with
  | EmptyString => EmptyString
  | String c rest => if p c then lstrip_by p rest else s
  end.

Definition lstrip (chars : string) (s : string) : string :=
  lstrip_by (contains_char chars) s.

(** [s.removeprefix(p)]: drop [p] when [s] starts with exactly [p]. *)
Fixpoint removeprefix (p s : string) : option string :=
  match p, s with
  | EmptyString, _ => Some s
  | String a p', String b s' =>
      if Ascii.eqb a b then removeprefix p' s' else None
  | String _ _, EmptyString => None
  end.

Fixpoint all_chars (p : ascii -> bool) (s : string) : bool :=
  match s with
  | EmptyString => true
  | String c rest => p c && all_chars p rest
  end.

(** Lowering of the ASCII letters: [A-Z] go to [a-z], every other byte is
    kept. *)
Definition lower_char (c : ascii) : ascii :=
  let n := nat_of_ascii c in
  if ((65 <=? n) && (n <=? 90))%nat then ascii_of_nat (n + 32) else c.

Fixpoint ascii_lower (s : string) : string :=
  match s with
  | EmptyString => EmptyString
  | String c rest => String (lower_char c) (ascii_lower rest)
  end.

(** A string of ASCII characters: in UTF-8, every byte below 128. *)
Definition is_ascii (s : string) : bool :=
  all_chars (fun c => (nat_of_ascii c <? 128)%nat) s.

(** [s.lower()].  Python lowers by Unicode code point, with the tables
    of the Unicode database: beyond ASCII the result is not a byte-wise
    map (U+212A KELVIN SIGN lowers to [k], U+0130 to two code points).
    The function is therefore a parameter, of which only the ASCII part is
    fixed: on a string of ASCII characters it lowers [A-Z] and keeps the
    rest. *)
Class Lower := {
  lower : string -> string;
  lower_ascii : forall s, is_ascii s = true -> lower s = ascii_lower s;
}.

(** The lowering of ASCII letters alone, as an instance: it is Python's
    [lower] on the plain URLs of the examples. *)
#[global] Instance ascii_only : Lower :=
  {| lower := ascii_lower; lower_ascii := fun _ _ => eq_refl |}.

(** [s.endswith(t)]: [t] is [s] itself or a suffix of the tail of [s]. *)
Fixpoint endswith (s t : string) : bool :=
  String.eqb s t ||
  match s with
  | EmptyString => false
  | String _ rest => endswith rest t
  end.

(** [s.startswith(t)]. *)
Definition startswith (s t : string) : bool := String.prefix t s.

(** [t in s] for strings: [t] starts [s] or occurs in its tail. *)
Fixpoint contains (s t : string) : bool :=
  String.prefix t s ||
  match s with
  | EmptyString => false
  | String _ rest => contains rest t
  end.

(** [s.partition(c)] at the first occurrence of the character [c]:
    [Some (before, after)], or [None] when [c] does not occur. *)
Fixpoint partition_char (c : ascii) (s : string) : option (string * string) :=
  match s with
  | EmptyString => None
  | String d rest =>
      if Ascii.eqb d c then Some (EmptyString, rest)
      else match partition_char c rest with
           | Some (before, after) => Some (String d before, after)
           | None => None
           end
  end.

(** The longest prefix of [s] with no character satisfying [stop]. *)
Fixpoint take_until (stop : ascii -> bool) (s : string) : string :=
  match s with
  | EmptyString => EmptyString
  | String c rest => if stop c then EmptyString else String c (take_until stop rest)
  end.

Fixpoint filter_chars (keep : ascii -> bool) (s : string) : string :=
  match s with
  | EmptyString => EmptyString
  | String c rest =>
      if keep c then String c (filter_chars keep rest) else filter_chars keep rest
  end.

(** Truthiness of an optional string: [None] and [""] are false. *)
Definition truthy (s : option string) : bool :=
  match s with
  | None => false
  | Some EmptyString => false
  | Some (String _ _) => true
  end.

End Str.

(* ===================================================================== *)
(** * [urllib.parse.urlsplit], the parts that yield [netloc] and [hostname] *)
(* ===================================================================== *)

(** [urlparse] belongs to the Python standard library, not to this
    repository.  The classifier below is therefore parametrised by the
    function [website |-> urlparse(website).netloc] ([None] when the call
    raises), and its general properties hold for every such function.
    [Urllib.netloc] is the library's algorithm written out for ASCII URLs,
    used to run the classifier on concrete addresses: leading C0 controls
    and spaces are stripped, tab, CR and LF are removed, a scheme
    [letter (letter | digit | + | - | .)* :] is split off, and when the
    rest starts with [//] the authority runs up to the first [/], [?] or
    [#].  An authority with one square bracket but not the other raises
    [ValueError]; the address check that recent releases apply inside
    balanced brackets is not reproduced.  [Urllib.hostname] is the
    library's [hostname], the host proper; the code of this repository
    does not read it, the specification speaks of it. *)
Module Urllib.

Definition is_c0_control_or_space (c : ascii) : bool := (nat_of_ascii c <=? 32)%nat.

Definition is_unsafe_byte (c : ascii) : bool :=
  let n := nat_of_ascii c in ((n =? 9) || (n =? 13) || (n =? 10))%nat.

Definition is_ascii_alpha (c : ascii) : bool :=
  let n := nat_of_ascii c in
  (((65 <=? n) && (n <=? 90)) || ((97 <=? n) && (n <=? 122)))%nat.

Definition is_digit (c : ascii) : bool :=
  let n := nat_of_ascii c in ((48 <=? n) && (n <=? 57))%nat.

Definition is_scheme_char (c : ascii) : bool :=
  is_ascii_alpha c || is_digit c || Str.contains_char "+-." c.

(** The URL left once a well-formed scheme and its colon are removed. *)
Definition drop_scheme (url : string) : string :=
  match Str.partition_char ":" url with
  | Some (String c0 before, after) =>
      if is_ascii_alpha c0 && Str.all_chars is_scheme_char (String c0 before)
      then after else url
  | _ => url
  end.

Definition netloc (url : string) : option string :=
  let url := Str.lstrip_by is_c0_control_or_space url in
  let url := Str.filter_chars (fun c => negb (is_unsafe_byte c)) url in
  let url := drop_scheme url in
  match url with
  | String "/" (String "/" rest) =>
      let nl := Str.take_until (Str.contains_char "/?#") rest in
      let has_open := Str.contains nl "[" in
      let has_close := Str.contains nl "]" in
      if (has_open && negb has_close) || (has_close && negb has_open)
      then None
      else Some nl
  | _ => Some EmptyString
  end.

(** [urlsplit(url).hostname] from the [netloc]: what follows the last
    [@], up to the closing bracket of a bracketed address or else up to
    the first colon, lowered ahead of a [%] zone; [None] when that is
    empty.  It is the host proper, without userinfo and port. *)
Fixpoint rpartition_at (s : string) : string :=
  match s with
  | EmptyString => EmptyString
  | String c rest =>
      if Str.contains rest "@" then rpartition_at rest
      else if Ascii.eqb c "@" then rest else s
  end.

Definition hostname `{Str.Lower} (netloc : string) : option string :=
  let hostinfo := rpartition_at netloc in
  let host :=
    match Str.partition_char "[" hostinfo with
    | Some (_, bracketed) => Str.take_until (Ascii.eqb "]") bracketed
    | None => Str.take_until (Ascii.eqb ":") hostinfo
    end in
  match host with
  | EmptyString => None
  | _ =>
      match Str.partition_char "%" host with
      | Some (name, zone) => Some (Str.lower name ++ "%" ++ zone)
      | None => Some (Str.lower host)
      end
  end.

End Urllib.

(* ===================================================================== *)
(** * Domain classifier ([classify_website], identical in both files) *)
(* ===================================================================== *)

(** The module-level set literal, with the entries in the order and
    multiplicity of the source (["postmates.com"] is written twice; a set
    keeps one). *)
Definition THIRD_PARTY_DOMAINS : list string :=
  [ "doordash.com";
    "grubhub.com";
    "ubereats.com";
    "seamless.com";
    "postmates.com";
    "slicelife.com";
    "slicelife.onelink.me";
    "postmates.com";
    "bestcafes.online" ].

(** [any(domain.endswith(third) for third in THIRD_PARTY_DOMAINS)]. *)
Definition is_third_party (domain : string) : bool :=
  existsb (Str.endswith domain) THIRD_PARTY_DOMAINS.

Section Classifier.

Context `{Str.Lower}.

(** [urlparse(website).netloc], [None] when [urlparse] raises. *)
Variable urlparse_netloc : string -> option string.

(** [domain.lower().lstrip("www.")]. *)
Definition normalise_domain (netloc : string) : string :=
  Str.lstrip "www." (Str.lower netloc).

(** After [if not website: return (False, False)] the website is a
    non-empty string; the [try] block either computes the verdict or, when
    [urlparse] raises, falls to [except Exception: return (True, False)]. *)
Definition classify_website (website : option string) : bool * bool :=
  if negb (Str.truthy website) then (false, false)
  else
    match urlparse_netloc (default "" website) with
    | Some netloc =>
        let domain := normalise_domain netloc in
        if is_third_party domain then (true, false) else (true, true)
    | None => (true, false)
    end.

End Classifier.

(** ** The classifier in the words of the specification *)

(** The aggregator set of the specification. *)
Definition AGGREGATOR_DOMAINS : list string :=
  [ "doordash.com"; "grubhub.com"; "ubereats.com"; "seamless.com";
    "postmates.com"; "slicelife.com"; "slicelife.onelink.me";
    "bestcafes.online" ].

(** "Strip a leading www. prefix": the literal characters [www.] are
    removed when the host starts with them, and nothing otherwise. *)
Definition strip_www_prefix (host : string) : string :=
  match Str.removeprefix "www." host with
  | Some rest => rest
  | None => host
  end.

(** "The host ends with any string in the aggregator set." *)
Definition ends_with_aggregator (host : string) : Prop :=
  exists d p, d ∈ AGGREGATOR_DOMAINS /\ host = p ++ d.

(* ===================================================================== *)
(** * Message composer ([generate_messages], extended_analysis.py) *)
(* ===================================================================== *)

(** The line feed written [\n] in the source. *)
Definition LF : string := String (ascii_of_nat 10) EmptyString.

Record OutreachMessage := {
  subject : string;
  body : string;
  sms : string;
}.

Definition no_website_message (account_name : string) : OutreachMessage :=
  let salutation := "Hi " ++ account_name ++ "," in
  {| subject := "Grow your pizzeria with a custom website and phone ordering";
     body :=
       salutation ++ LF ++ LF ++
       "I noticed your pizzeria doesn’t have a website listed online. " ++
       "With Slice, you can get a tailor‑made website and a phone ordering " ++
       "solution that puts you in control of your customer relationships. " ++
       "Our platform even offers discounted delivery and a pizzeria‑specific POS system to help you run your business more smoothly.";
     sms :=
       account_name ++ ": We can build you a custom website and phone ordering " ++
       "solution through Slice, plus discounted delivery and a POS built for pizzerias." |}.

Definition third_party_message (account_name : string) : OutreachMessage :=
  let salutation := "Hi " ++ account_name ++ "," in
  {| subject := "Boost profits with direct ordering and discounted delivery";
     body :=
       salutation ++ LF ++ LF ++
       "It looks like your current website relies on third‑party ordering apps. " ++
       "Slice lets you own the entire ordering experience with direct online and phone ordering. " ++
       "We provide integrated discounted delivery and a POS designed specifically for independent pizzerias, so you keep more margin and delight your customers.";
     sms :=
       account_name ++ ": Let’s get you off third‑party apps. Slice offers direct online/phone ordering with discounted delivery and a pizzeria‑specific POS." |}.

Definition direct_message (account_name : string) : OutreachMessage :=
  let salutation := "Hi " ++ account_name ++ "," in
  {| subject := "Take your online presence further with Slice’s marketing & POS";
     body :=
       salutation ++ LF ++ LF ++
       "Great job having your own direct ordering! Slice can help you go even further " ++
       "with advanced advertising services, a powerful owner’s app, and a POS built for pizzerias. " ++
       "We also host pizzeria‑owner events and provide industry reports to help you stay ahead.";
     sms :=
       account_name ++ ": You’re already direct—let’s accelerate growth. Slice offers marketing, a custom POS, and owner resources just for pizzerias." |}.

(** The three branches of the source, in its order: [if not has_website],
    [elif has_website and not direct_ordering], [else]. *)
Definition generate_messages
    (account_name : string) (has_website direct_ordering : bool) : OutreachMessage :=
  if negb has_website then no_website_message account_name
  else if has_website && negb direct_ordering then third_party_message account_name
  else direct_message account_name.

(* ===================================================================== *)
(** * Exceptions *)
(* ===================================================================== *)

(** The exceptions that leave the functions modelled here.  [OSError]
    stands for the subclasses not listed apart. *)
Inductive exn : Type :=
| FileNotFoundError
| IsADirectoryError
| PermissionError
| OSError
| BadZipFile
| KeyError
| ValueError
| InvalidIndexError.

Definition result (A : Type) : Type := (exn + A)%type.
Definition Ok {A : Type} (a : A) : result A := inr a.
Definition Raise {A : Type} (e : exn) : result A := inl e.

Definition result_bind {A B : Type} (r : result A) (k : A -> result B) : result B :=
  match r with
  | inl e => inl e
  | inr a => k a
  end.

Notation "x <-! r ; k" := (result_bind r (fun x => k))
  (at level 100, r at next level, right associativity,
   format "'[' x  <-!  r ; '/' k ']'").

(* ===================================================================== *)
(** * The fragment of pandas the record loader uses *)
(* ===================================================================== *)

(** The non-missing values a cell can hold (text, numbers, ...), with
    Python's equality and [str()].  [py_str_series name index values] is
    [str()] of the pandas Series with that name, those index labels and
    those values ([None] for NaN): the table pandas prints, whose layout
    depends on the display options and is not fixed here. *)
Class PyValue (V : Type) := {
  PyValue_eq_dec :: EqDecision V;
  py_str : V -> string;
  py_str_series : nat -> list string -> list (option V) -> string;
}.

(** Text cells, for the sample workbooks.  No sample run formats a
    Series (where a sample row carries a label twice, the run either has
    no key or stops before the query is composed), so this instance
    renders one as the empty text. *)
#[export] Instance PyValue_string : PyValue string :=
  {| py_str := fun s => s; py_str_series := fun _ _ _ => "" |}.

Module Pandas.
Section Frames.

Context {V : Type} `{PyValue V}.

(** A cell: [None] is the missing value, NaN. *)
Definition cell : Type := option V.

Definition isna (c : cell) : bool :=
  match c with None => true | Some _ => false end.

Definition notna (c : cell) : bool := negb (isna c).

(** A frame: the column labels and the rows in order.  Row labels (the
    index) are not modelled; the loader renumbers them with
    [ignore_index] and [reset_index] and nothing reads them. *)
Record DataFrame := {
  columns : list string;
  rows : list (list cell);
}.

(** The cell of [row] at position [i]; a short row reads as NaN. *)
Definition cell_at (row : list cell) (i : nat) : cell :=
  match row !! i with
  | Some c => c
  | None => None
  end.

(** Every position of [label] among [cols], left to right. *)
Fixpoint positions_from (i : nat) (label : string) (cols : list string) : list nat :=
  match cols with
  | [] => []
  | c :: cols' =>
      if bool_decide (c = label) then i :: positions_from (S i) label cols'
      else positions_from (S i) label cols'
  end.

Definition positions (label : string) (cols : list string) : list nat :=
  positions_from 0 label cols.

(** [df.rename(columns=mapping)]: labels found in the mapping are
    replaced, the others stay. *)
Definition rename_label (mapping : gmap string string) (label : string) : string :=
  match mapping !! label with
  | Some new => new
  | None => label
  end.

Definition rename (mapping : gmap string string) (df : DataFrame) : DataFrame :=
  {| columns := map (rename_label mapping) (columns df); rows := rows df |}.

(** [df[keys]] for a list of keys.  Column labels are strings, so a key
    [None] is never among them and raises [KeyError], as does a label
    that is not a column; otherwise every column carrying each key is
    selected, in key order. *)
Definition key_present (cols : list string) (key : option string) : bool :=
  match key with
  | Some k => bool_decide (k ∈ cols)
  | None => false
  end.

Definition key_positions (cols : list string) (key : option string) : list nat :=
  match key with
  | Some k => positions k cols
  | None => []
  end.

Definition getitem (keys : list (option string)) (df : DataFrame) : result DataFrame :=
  if forallb (key_present (columns df)) keys then
    let idx := flat_map (key_positions (columns df)) keys in
    Ok {| columns := map (fun i => nth i (columns df) "") idx;
          rows := map (fun row => map (cell_at row) idx) (rows df) |}
  else Raise KeyError.

(** [df.dropna(how="all")]: rows whose cells are all missing go. *)
Definition dropna_all (df : DataFrame) : DataFrame :=
  {| columns := columns df;
     rows := filter (fun row => forallb isna row = false) (rows df) |}.

(** Labels in order of first appearance. *)
Fixpoint unique_labels (seen : list string) (labels : list string) : list string :=
  match labels with
  | [] => []
  | c :: rest =>
      if bool_decide (c ∈ seen) then unique_labels seen rest
      else c :: unique_labels (c :: seen) rest
  end.

Definition reindex (cols : list string) (df : DataFrame) : list (list cell) :=
  map (fun row =>
         map (fun c => match positions c (columns df) with
                       | i :: _ => cell_at row i
                       | [] => None
                       end) cols)
      (rows df).

(** [pd.concat(dfs, ignore_index=True)]: nothing to concatenate raises
    [ValueError]; frames with the same columns are stacked; frames with
    different columns are aligned on the union of the labels, which
    needs every frame's labels to be unique. *)
Definition concat (dfs : list DataFrame) : result DataFrame :=
  match dfs with
  | [] => Raise ValueError
  | df0 :: others =>
      if forallb (fun df => bool_decide (columns df = columns df0)) others then
        Ok {| columns := columns df0; rows := flat_map rows dfs |}
      else if forallb (fun df => bool_decide (NoDup (columns df))) dfs then
        let cols := unique_labels [] (flat_map columns dfs) in
        Ok {| columns := cols; rows := flat_map (reindex cols) dfs |}
      else Raise InvalidIndexError
  end.

(** The key of a row for [drop_duplicates(subset=...)]: its cells in the
    columns named by [subset]. *)
Definition subset_positions (subset cols : list string) : list nat :=
  flat_map (fun '(i, c) => if bool_decide (c ∈ subset) then [i] else [])
           (imap (fun i c => (i, c)) cols).

Definition row_key (idx : list nat) (row : list cell) : list cell :=
  map (cell_at row) idx.

(** Keep a row unless its key was seen on an earlier row
    ([keep="first"], the default).  Missing values compare equal. *)
Fixpoint keep_first (idx : list nat) (seen : list (list cell))
    (rs : list (list cell)) : list (list cell) :=
  match rs with
  | [] => []
  | r :: rs' =>
      if bool_decide (row_key idx r ∈ seen) then keep_first idx seen rs'
      else r :: keep_first idx (row_key idx r :: seen) rs'
  end.

Definition drop_duplicates (subset : list string) (df : DataFrame) : result DataFrame :=
  if forallb (fun c => bool_decide (c ∈ columns df)) subset then
    Ok {| columns := columns df;
          rows := keep_first (subset_positions subset (columns df)) [] (rows df) |}
  else Raise KeyError.

(** [df.reset_index(drop=True, inplace=True)] renumbers the rows. *)
Definition reset_index (df : DataFrame) : DataFrame := df.

(** A Series: its name, its index labels and its values.  A row
    yielded by [iterrows] is the Series named by the row's label, indexed
    by the frame's columns. *)
Record Series := {
  name : nat;
  index : list string;
  values : list cell;
}.

(** [df.iterrows()] on a frame whose index was reset: the row labels
    are the positions [0, 1, ...]. *)
Definition iterrows (df : DataFrame) : list Series :=
  imap (fun i row => {| name := i; index := columns df; values := row |}) (rows df).

(** What [row.get(label)] returns: the cell when the label occurs once in
    the index; the Series of the cells under the label when it occurs
    several times; the default [None] when it does not occur. *)
Inductive got : Type :=
| Scalar (c : cell)
| SubSeries (s : Series)
| Default.

Definition get (row : Series) (label : string) : got :=
  match positions label (index row) with
  | [] => Default
  | [i] => Scalar (cell_at (values row) i)
  | idx => SubSeries {| name := name row;
                        index := map (fun _ => label) idx;
                        values := map (cell_at (values row)) idx |}
  end.

(** The truth value of [pd.notna(x)] in a condition.  [None] and NaN are
    missing.  On a Series [pd.notna] returns a Series, and the truth
    value of a Series is ambiguous: [ValueError]. *)
Definition notna_truth (x : got) : result bool :=
  match x with
  | Scalar c => Ok (notna c)
  | SubSeries _ => Raise ValueError
  | Default => Ok false
  end.

(** [str(s)] for a Series. *)
Definition Series_str (s : Series) : string :=
  py_str_series (name s) (index s) (values s).

End Frames.
End Pandas.

Arguments Pandas.DataFrame V : clear implicits.
Arguments Pandas.cell V : clear implicits.
Arguments Pandas.Series V : clear implicits.
Arguments Pandas.got V : clear implicits.

(* ===================================================================== *)
(** * Record loader ([read_shops_from_excel], identical in both files) *)
(* ===================================================================== *)

Section Loader.

Context {V : Type} `{PyValue V}.

(** A workbook: the frame [pd.read_excel] yields for each sheet name. *)
Definition Workbook : Type := gmap string (Pandas.DataFrame V).

(** What is found at a path: a workbook that opens, or something on
    which [pd.ExcelFile] raises [e] (a directory, a file that may not be
    read, a file that is no workbook, a damaged archive). *)
Inductive file : Type :=
| Excel (xls : Workbook)
| NotExcel (e : exn).

(** The files, by path. *)
Definition FileSystem : Type := gmap string file.

(** [pd.ExcelFile(xlsx_path)]: a path that leads nowhere raises
    [FileNotFoundError]. *)
Definition ExcelFile (fs : FileSystem) (xlsx_path : string) : result Workbook :=
  match fs !! xlsx_path with
  | Some (Excel xls) => Ok xls
  | Some (NotExcel e) => Raise e
  | None => Raise FileNotFoundError
  end.

Definition sheet_names : list string :=
  [ "All"; "Multi Location Shops"; "OO Partners" ].

Definition COLUMN_RENAMES : gmap string string :=
  list_to_map
    [ ("Shop ID", "ShopID");
      ("Account Name", "AccountName");
      ("Billing City", "BillingCity");
      ("Billing Zip/Postal Code", "BillingZip") ].

(** ["ShopID" if "ShopID" in df.columns else None] and its three
    siblings. *)
Definition if_column (df : Pandas.DataFrame V) (label : string) : option string :=
  if bool_decide (label ∈ Pandas.columns df) then Some label else None.

(** The body of the loop over the sheets, for a sheet that is there. *)
Definition load_sheet (df : Pandas.DataFrame V) : result (Pandas.DataFrame V) :=
  let df := Pandas.rename COLUMN_RENAMES df in
  subset <-! Pandas.getitem
               [ if_column df "ShopID";
                 if_column df "AccountName";
                 if_column df "BillingCity";
                 if_column df "BillingZip" ] df;
  Ok (Pandas.dropna_all subset).

(** [for sheet in sheet_names: if sheet in xls.sheet_names: ...
    dfs.append(subset)], with [dfs] the list built so far. *)
Fixpoint load_sheets (xls : Workbook) (names : list string)
    (dfs : list (Pandas.DataFrame V)) : result (list (Pandas.DataFrame V)) :=
  match names with
  | [] => Ok dfs
  | sheet :: names' =>
      match xls !! sheet with
      | Some df =>
          subset <-! load_sheet df;
          load_sheets xls names' (dfs ++ [subset])
      | None => load_sheets xls names' dfs
      end
  end.

Definition read_shops_from_excel (fs : FileSystem) (xlsx_path : string)
    : result (Pandas.DataFrame V) :=
  xls <-! ExcelFile fs xlsx_path;
  dfs <-! load_sheets xls sheet_names [];
  all_shops <-! Pandas.concat dfs;
  all_shops <-! Pandas.drop_duplicates ["AccountName"] all_shops;
  Ok (Pandas.reset_index all_shops).

End Loader.

Arguments Workbook V : clear implicits.
Arguments file V : clear implicits.
Arguments FileSystem V : clear implicits.
Arguments Excel {V} xls.
Arguments NotExcel {V} e.

(** Sample workbooks. *)
Definition sheet_all : Pandas.DataFrame string :=
  {| Pandas.columns := ["Shop ID"; "Account Name"; "Owner"; "Billing City"; "Billing Zip/Postal Code"];
     Pandas.rows :=
       [ [Some "1"; Some "Tony's Pizza"; Some "Tony"; Some "Boston"; Some "02108"];
         [None; None; Some "nobody"; None; None];
         [Some "2"; Some "Luigi's"; None; Some "Salem"; Some "01970"];
         [Some "3"; Some "Tony's Pizza"; None; Some "Lynn"; None] ] |}.

Definition sheet_partners : Pandas.DataFrame string :=
  {| Pandas.columns := ["Account Name"; "Shop ID"; "Billing Zip/Postal Code"; "Billing City"];
     Pandas.rows :=
       [ [Some "Luigi's"; Some "9"; Some "01970"; Some "Salem"];
         [Some "Mario's"; Some "4"; Some "02139"; Some "Cambridge"] ] |}.

Definition sheet_names_only : Pandas.DataFrame string :=
  {| Pandas.columns := ["Account Name"];
     Pandas.rows := [ [Some "Tony's Pizza"] ] |}.

Definition sample_fs : FileSystem string :=
  {[ "Store Map.xlsx" := Excel ({[ "All" := sheet_all; "OO Partners" := sheet_partners ]} : Workbook string);
     "names.xlsx" := Excel ({[ "All" := sheet_names_only ]} : Workbook string);
     "other.xlsx" := Excel ({[ "Sheet1" := sheet_all ]} : Workbook string);
     "notes.txt" := NotExcel ValueError;
     "archive" := NotExcel IsADirectoryError ]}.

(* ===================================================================== *)
(** * The remote service and the state of a run *)
(* ===================================================================== *)

(** What the [try] block of [query_google_places] can observe: an
    exception ([FindError]: transport failure, error status, malformed
    body), or the [place_id] of each entry of ["candidates"]. *)
Inductive find_reply : Type :=
| FindError
| FindCandidates (place_ids : list (option string)).

(** What the [try] block of [get_place_details] can observe: an exception,
    or the ["website"] and ["url"] fields of ["result"]. *)
Inductive details_reply : Type :=
| DetailsError
| DetailsResult (website url : option string).

(** The Places service: a state and its answer to the two requests. *)
Record Service := {
  service_state : Type;
  findplacefromtext : service_state -> string -> string -> find_reply * service_state;
  place_details : service_state -> string -> string -> details_reply * service_state;
}.

Inductive call : Type :=
| FindPlaceCall (api_key query : string)
| PlaceDetailsCall (api_key place_id : string).

Section Run.

Variable svc : Service.

(** The state threaded through a run: the service, the requests made so
    far (oldest first), the number of [time.sleep(0.2)] pauses and the
    lines printed. *)
Record run_state := {
  remote : service_state svc;
  calls : list call;
  sleeps : nat;
  stdout : list string;
}.

Definition M (A : Type) : Type := run_state -> A * run_state.

Definition ret {A : Type} (a : A) : M A := fun s => (a, s).

Definition bind {A B : Type} (m : M A) (k : A -> M B) : M B :=
  fun s => let '(a, s') := m s in k a s'.

(** A step that may raise: an exception ends the computation, in the
    state reached when it is raised. *)
Definition try_bind {A B : Type} (m : M (result A)) (k : A -> M (result B))
    : M (result B) :=
  fun s => match m s with
           | (inl e, s') => (inl e, s')
           | (inr a, s') => k a s'
           end.

Definition print (line : string) : M unit :=
  fun s => (tt, {| remote := remote s; calls := calls s;
                   sleeps := sleeps s; stdout := stdout s ++ [line] |}).

Definition sleep : M unit :=
  fun s => (tt, {| remote := remote s; calls := calls s;
                   sleeps := S (sleeps s); stdout := stdout s |}).

Definition request_find (api_key query : string) : M find_reply :=
  fun s =>
    let '(reply, r) := findplacefromtext svc (remote s) api_key query in
    (reply, {| remote := r; calls := calls s ++ [FindPlaceCall api_key query];
               sleeps := sleeps s; stdout := stdout s |}).

Definition request_details (api_key place_id : string) : M details_reply :=
  fun s =>
    let '(reply, r) := place_details svc (remote s) api_key place_id in
    (reply, {| remote := r; calls := calls s ++ [PlaceDetailsCall api_key place_id];
               sleeps := sleeps s; stdout := stdout s |}).

End Run.

Arguments ret {svc A} a.
Arguments bind {svc A B} m k.
Arguments try_bind {svc A B} m k.
Arguments print {svc} line.
Arguments sleep {svc}.
Arguments remote {svc} r.
Arguments calls {svc} r.
Arguments sleeps {svc} r.
Arguments stdout {svc} r.

Notation "x <- m ;; k" := (bind m (fun x => k))
  (at level 100, m at next level, right associativity,
   format "'[' x  <-  m ;; '/' k ']'").
Notation "m ;; k" := (bind m (fun _ => k))
  (at level 100, right associativity, format "'[' m ;; '/' k ']'").
Notation "x <-? m ;; k" := (try_bind m (fun x => k))
  (at level 100, m at next level, right associativity,
   format "'[' x  <-?  m ;; '/' k ']'").

(** A run that has done nothing yet. *)
Definition fresh {svc : Service} (r : service_state svc) : run_state svc :=
  {| remote := r; calls := []; sleeps := 0; stdout := [] |}.

(* ===================================================================== *)
(** * Enrichment client (identical in both files) *)
(* ===================================================================== *)

Section Enrichment.

Variable svc : Service.

Definition query_google_places (api_key query : string) : M svc (option string) :=
  reply <- request_find svc api_key query ;;
  ret match reply with
      | FindCandidates (place_id :: _) => place_id
      | FindCandidates [] => None
      | FindError => None
      end.

(** The returned dictionary, as the pair of its ["website"] and ["url"]
    entries. *)
Definition get_place_details (api_key place_id : string)
    : M svc (option string * option string) :=
  reply <- request_details svc api_key place_id ;;
  ret match reply with
      | DetailsResult website url => (website, url)
      | DetailsError => (None, None)
      end.

End Enrichment.

Arguments query_google_places {svc} api_key query.
Arguments get_place_details {svc} api_key place_id.

(* ===================================================================== *)
(** * Batch orchestrator ([analyse_shops]) *)
(* ===================================================================== *)

Definition WARNING_NO_KEY : string :=
  "WARNING: No GOOGLE_API_KEY environment variable found. The script will " ++
  "proceed without API calls and mark all shops as unknown.".

Definition NOTE_NO_WEBSITE : string := "No website".
Definition NOTE_THIRD_PARTY : string := "Website appears to be third‑party ordering".
Definition NOTE_PLACE_NOT_FOUND : string := "Place not found".
Definition NOTE_NO_API_KEY : string := "API key not provided".

Definition CLASSIFICATION_HEADER : list string :=
  [ "ShopID"; "AccountName"; "BillingCity"; "BillingZip";
    "Website"; "HasWebsite"; "DirectOrdering"; "Note" ].

Definition MESSAGE_HEADER : list string :=
  [ "ShopID"; "AccountName"; "EmailSubject"; "EmailBody"; "SmsBody" ].

(** The process environment read by [os.getenv]. *)
Definition Environ : Type := gmap string string.

Definition getenv (env : Environ) (name : string) : option string := env !! name.

Section Orchestrator.

Context {V : Type} `{PyValue V} `{Str.Lower}.

(** [urlparse(website).netloc], [None] when it raises. *)
Variable urlparse_netloc : string -> option string.
Variable svc : Service.

(** One row handed to [writer.writerow] / appended to
    [classifications]: the four values read with [row.get], and the
    verdict. *)
Record OutputRow := {
  ShopID : Pandas.got V;
  AccountName : Pandas.got V;
  BillingCity : Pandas.got V;
  BillingZip : Pandas.got V;
  Website : option string;
  HasWebsite : bool;
  DirectOrdering : bool;
  Note : string;
}.

(** One row appended to [messages]. *)
Record MessageRow := {
  msg_ShopID : Pandas.got V;
  msg_AccountName : Pandas.got V;
  EmailSubject : string;
  EmailBody : string;
  SmsBody : string;
}.

Record CsvFile (R : Type) := {
  header : list string;
  records : list R;
}.

(** A cell interpolated in an f-string: [str(value)], and ["nan"] for a
    missing one. *)
Definition format_cell (c : Pandas.cell V) : string :=
  match c with
  | Some v => py_str v
  | None => "nan"
  end.

(** A value read with [row.get], interpolated in an f-string. *)
Definition format_got (x : Pandas.got V) : string :=
  match x with
  | Pandas.Scalar c => format_cell c
  | Pandas.SubSeries s => Pandas.Series_str s
  | Pandas.Default => "None"
  end.

(** The text [csv.writer] puts in the Website field: empty for [None]. *)
Definition csv_field (value : option string) : string :=
  match value with
  | Some s => s
  | None => ""
  end.

(** [f"{account_name}, {city if pd.notna(city) else ''}, MA"]. *)
Definition build_query (account_name city : Pandas.got V) : result string :=
  present <-! Pandas.notna_truth city;
  Ok (format_got account_name ++ ", " ++
      (if present then format_got city else "") ++ ", MA").

(** The part of the loop body both files share: from [shop_id =
    row.get("ShopID")] down to the row that is written. *)
Definition classify_shop (api_key : option string) (row : Pandas.Series V)
    : M svc (result OutputRow) :=
  let shop_id := Pandas.get row "ShopID" in
  let account_name := Pandas.get row "AccountName" in
  let city := Pandas.get row "BillingCity" in
  let zip_code := Pandas.get row "BillingZip" in
  let emit website_url has_site direct note :=
    {| ShopID := shop_id; AccountName := account_name;
       BillingCity := city; BillingZip := zip_code;
       Website := website_url; HasWebsite := has_site;
       DirectOrdering := direct; Note := note |} in
  if Str.truthy api_key then
    let key := default "" api_key in
    query <-? ret (build_query account_name city) ;;
    place_id <- query_google_places key query ;;
    if Str.truthy place_id then
      details <- get_place_details key (default "" place_id) ;;
      let website_url := fst details in
      let '(has_site, direct) := classify_website urlparse_netloc website_url in
      let note :=
        if negb has_site then NOTE_NO_WEBSITE
        else if negb direct then NOTE_THIRD_PARTY
        else "" in
      ret (Ok (emit website_url has_site direct note))
    else ret (Ok (emit None false false NOTE_PLACE_NOT_FOUND))
  else ret (Ok (emit None false false NOTE_NO_API_KEY)).

(** [if api_key: time.sleep(0.2)]. *)
Definition throttle (api_key : option string) : M svc unit :=
  if Str.truthy api_key then sleep else ret tt.

Definition warn_if_no_key (api_key : option string) : M svc unit :=
  if negb (Str.truthy api_key) then print WARNING_NO_KEY else ret tt.

End Orchestrator.

Arguments header {R} c.
Arguments records {R} c.
Arguments OutputRow V : clear implicits.
Arguments MessageRow V : clear implicits.

(** ** shop_analysis.py *)

Module ShopAnalysis.
Section Batch.

Context {V : Type} `{PyValue V} `{Str.Lower}.
Variable urlparse_netloc : string -> option string.

(** [open(path, "w", newline="", encoding="utf-8")]: the file opens, or
    the call raises. *)
Variable open_w : string -> result unit.
Variable svc : Service.

(** [for idx, row in shops_df.iterrows(): ... writer.writerow(...)
    ... time.sleep(0.2)]: the rows written, in order. *)
Fixpoint write_rows (api_key : option string) (rows : list (Pandas.Series V))
    : M svc (result (list (OutputRow V))) :=
  match rows with
  | [] => ret (Ok [])
  | row :: rest =>
      r <-? classify_shop urlparse_netloc svc api_key row ;;
      throttle svc api_key ;;
      rs <-? write_rows api_key rest ;;
      ret (Ok (r :: rs))
  end.

(** The rows handed to the writer of [output_file] by a run that
    completes, the exception otherwise.  The output file is opened
    after the workbook is read and before the first row is handled. *)
Definition analyse_shops (env : Environ) (fs : FileSystem V)
    (input_file output_file : string) : M svc (result (CsvFile (OutputRow V))) :=
  let api_key := getenv env "GOOGLE_API_KEY" in
  warn_if_no_key svc api_key ;;
  shops_df <-? ret (read_shops_from_excel fs input_file) ;;
  f <-? ret (open_w output_file) ;;
  rs <-? write_rows api_key (Pandas.iterrows shops_df) ;;
  ret (Ok {| header := CLASSIFICATION_HEADER; records := rs |}).

End Batch.
End ShopAnalysis.

(** ** extended_analysis.py *)

Module ExtendedAnalysis.
Section Batch.

Context {V : Type} `{PyValue V} `{Str.Lower}.
Variable urlparse_netloc : string -> option string.

(** [open(path, "w", newline="", encoding="utf-8")]. *)
Variable open_w : string -> result unit.
Variable svc : Service.

(** [generate_messages(account_name, has_site, direct)] and the row
    appended to [messages]. *)
Definition message_row (r : OutputRow V) : MessageRow V :=
  let m := generate_messages (format_got (AccountName r))
                             (HasWebsite r) (DirectOrdering r) in
  {| msg_ShopID := ShopID r; msg_AccountName := AccountName r;
     EmailSubject := subject m; EmailBody := body m; SmsBody := sms m |}.

(** The loop that fills [classifications] and [messages]. *)
Fixpoint collect_rows (api_key : option string) (rows : list (Pandas.Series V))
    : M svc (result (list (OutputRow V) * list (MessageRow V))) :=
  match rows with
  | [] => ret (Ok ([], []))
  | row :: rest =>
      r <-? classify_shop urlparse_netloc svc api_key row ;;
      let m := message_row r in
      throttle svc api_key ;;
      rest' <-? collect_rows api_key rest ;;
      ret (Ok (r :: fst rest', m :: snd rest'))
  end.

(** The rows handed to the writer of [output_file] and, when
    [message_output_file] is given, to the writer of that file, by a run
    that completes; the exception otherwise.  Both files are opened
    after the loop has ended. *)
Definition analyse_shops (env : Environ) (fs : FileSystem V)
    (input_file output_file : string) (message_output_file : option string)
    : M svc (result (CsvFile (OutputRow V) * option (CsvFile (MessageRow V)))) :=
  let api_key := getenv env "GOOGLE_API_KEY" in
  warn_if_no_key svc api_key ;;
  shops_df <-? ret (read_shops_from_excel fs input_file) ;;
  out <-? collect_rows api_key (Pandas.iterrows shops_df) ;;
  f <-? ret (open_w output_file) ;;
  let classifications := {| header := CLASSIFICATION_HEADER; records := fst out |} in
  if Str.truthy message_output_file then
    fmsg <-? ret (open_w (default "" message_output_file)) ;;
    ret (Ok (classifications,
             Some {| header := MESSAGE_HEADER; records := snd out |}))
  else ret (Ok (classifications, None)).

End Batch.
End ExtendedAnalysis.

(* ===================================================================== *)
(** * A sample run *)
(* ===================================================================== *)

(** A service that knows two of the three sample shops; its state counts
    the requests it has answered. *)
Definition sample_service : Service :=
  {| service_state := nat;
     findplacefromtext := fun n _ query =>
       (if String.eqb query "Tony's Pizza, Boston, MA" then FindCandidates [Some "place-tony"; Some "place-other"]
        else if String.eqb query "Luigi's, Salem, MA" then FindCandidates [Some "place-luigi"]
        else FindCandidates [], S n);
     place_details := fun n _ place_id =>
       (if String.eqb place_id "place-tony"
        then DetailsResult (Some "https://www.doordash.com/store/123") (Some "https://maps.example/tony")
        else if String.eqb place_id "place-luigi"
        then DetailsResult (Some "https://order.luigis.example") None
        else DetailsError, S n) |}.

Definition env_with_key : Environ := {[ "GOOGLE_API_KEY" := "secret" ]}.
Definition env_without_key : Environ := ∅.


(* ===================================================================== *)
(** * Notions used in the statements *)
(* ===================================================================== *)

(** The characters of a bare domain name. *)
Definition is_domain_char (c : ascii) : bool :=
  Urllib.is_ascii_alpha c || Urllib.is_digit c || Str.contains_char "-." c.

(** U+2011 NON-BREAKING HYPHEN in UTF-8: the bytes E2 80 91. *)
Definition NON_BREAKING_HYPHEN : string :=
  String (ascii_of_nat 226) (String (ascii_of_nat 128) (String (ascii_of_nat 145) "")).

(** The output row of [row] with a given verdict. *)
Definition output_row {V : Type} `{PyValue V} (row : Pandas.Series V)
    (website : option string) (has_site direct : bool) (note : string) : OutputRow V :=
  {| ShopID := Pandas.get row "ShopID";
     AccountName := Pandas.get row "AccountName";
     BillingCity := Pandas.get row "BillingCity";
     BillingZip := Pandas.get row "BillingZip";
     Website := website; HasWebsite := has_site; DirectOrdering := direct;
     Note := note |}.

(** The row of an entity on which no lookup was attempted. *)
Definition offline_row {V : Type} `{PyValue V} (row : Pandas.Series V) : OutputRow V :=
  output_row row None false false NOTE_NO_API_KEY.

(** ** The record loader in the words of the specification *)

(** The canonical entity fields, in the order of the output columns. *)
Definition CANONICAL_COLUMNS : list string :=
  [ "ShopID"; "AccountName"; "BillingCity"; "BillingZip" ].

Section LoaderNotions.

Context {V : Type} `{PyValue V}.

(** The header of a sheet once the known source columns are renamed. *)
Definition renamed_columns (df : Pandas.DataFrame V) : list string :=
  map (Pandas.rename_label COLUMN_RENAMES) (Pandas.columns df).

(** The sheet carries each of the four entity columns, under its source
    or its canonical name, exactly once. *)
Definition has_entity_columns (df : Pandas.DataFrame V) : bool :=
  forallb (fun label =>
             Nat.eqb (length (Pandas.positions label (renamed_columns df))) 1)
          CANONICAL_COLUMNS.

(** The cell of a row in the column that carries [label] (the first
    one, should several carry it; NaN should none). *)
Definition column_cell (cols : list string) (row : list (Pandas.cell V))
    (label : string) : Pandas.cell V :=
  match Pandas.positions label cols with
  | i :: _ => Pandas.cell_at row i
  | [] => None
  end.

(** The canonical fields of one row; every other column is discarded. *)
Definition entity_of (cols : list string) (row : list (Pandas.cell V))
    : list (Pandas.cell V) :=
  map (column_cell cols row) CANONICAL_COLUMNS.

(** The entities of a sheet, in row order, without the rows in which
    every canonical field is empty. *)
Definition sheet_entities (df : Pandas.DataFrame V) : list (list (Pandas.cell V)) :=
  filter (fun e => forallb Pandas.isna e = false)
         (map (entity_of (renamed_columns df)) (Pandas.rows df)).

(** The entities of a workbook in order of appearance: the sheets in the
    fixed order, an absent sheet contributing nothing. *)
Definition workbook_entities (xls : Workbook V) : list (list (Pandas.cell V)) :=
  flat_map (fun sheet => match xls !! sheet with
                         | Some df => sheet_entities df
                         | None => []
                         end)
           sheet_names.

(** The display name of an entity: its AccountName field. *)
Definition display_name (e : list (Pandas.cell V)) : Pandas.cell V :=
  Pandas.cell_at e 1.

(** At least one of the three sheets is there, and every one that is
    there carries the four entity columns. *)
Definition loadable (xls : Workbook V) : bool :=
  existsb (fun sheet => bool_decide (is_Some (xls !! sheet))) sheet_names &&
  forallb (fun sheet => match xls !! sheet with
                        | Some df => has_entity_columns df
                        | None => true
                        end)
          sheet_names.

End LoaderNotions.

Section LoaderHeaders.

Context {V : Type} `{PyValue V}.

(** No sheet that is there carries one of the four entity columns more
    than once after the renaming, as a sheet does that has the column
    under its source name and under its canonical name at once. *)
Definition unambiguous (xls : Workbook V) : bool :=
  forallb (fun sheet =>
             match xls !! sheet with
             | Some df =>
                 forallb (fun label =>
                            Nat.leb (length (Pandas.positions label (renamed_columns df))) 1)
                         CANONICAL_COLUMNS
             | None => true
             end)
          sheet_names.

End LoaderHeaders.

(** ** Notions for the properties of the batch loop *)

(** The four entity fields of an output row, in column order. *)
Definition entity_fields {V : Type} (r : OutputRow V) : list (Pandas.got V) :=
  [ ShopID r; AccountName r; BillingCity r; BillingZip r ].

(** The query built for a row. *)
Definition shop_query {V : Type} `{PyValue V} (row : Pandas.Series V) : result string :=
  build_query (Pandas.get row "AccountName") (Pandas.get row "BillingCity").

(** The requests one entity can cause: its search alone, or its search
    followed by one detail request. *)
Definition shop_requests {V : Type} `{PyValue V} (key : string)
    (row : Pandas.Series V) (requests : list call) : Prop :=
  exists query,
    shop_query row = Ok query /\
    (requests = [FindPlaceCall key query] \/
     exists place_id,
       requests = [FindPlaceCall key query; PlaceDetailsCall key place_id]).


(** A reply to the search that gives the caller no place id: a failure, no
    candidate, or a first candidate whose id is absent or empty. *)
Definition no_place (reply : find_reply) : Prop :=
  reply = FindError \/ reply = FindCandidates [] \/
  exists others, reply = FindCandidates (None :: others) \/
                 reply = FindCandidates (Some "" :: others).

(** The website a reply to the detail request carries. *)
Definition reply_website (reply : details_reply) : option string :=
  match reply with
  | DetailsResult website _ => website
  | DetailsError => None
  end.

(** A service that finds a place for every query but whose detail
    request always fails. *)
Definition details_down_service : Service :=
  {| service_state := nat;
     findplacefromtext := fun n _ _ => (FindCandidates [Some "place-1"; None], S n);
     place_details := fun n _ _ => (DetailsError, S n) |}.

Definition tony_row : list (Pandas.cell string) :=
  [Some "1"; Some "Tony's Pizza"; Some "Boston"; Some "02108"].

Definition luigi_row : list (Pandas.cell string) :=
  [Some "2"; Some "Luigi's"; Some "Salem"; Some "01970"].

Definition mario_row : list (Pandas.cell string) :=
  [Some "4"; Some "Mario's"; Some "Cambridge"; Some "02139"].

(** The frame the loader returns on the sample workbook, and two of its
    rows as [iterrows] yields them. *)
Definition sample_shops : Pandas.DataFrame string :=
  {| Pandas.columns := CANONICAL_COLUMNS;
     Pandas.rows := [ tony_row; luigi_row; mario_row ] |}.

Definition tony_series : Pandas.Series string :=
  {| Pandas.name := 0; Pandas.index := CANONICAL_COLUMNS; Pandas.values := tony_row |}.

Definition mario_series : Pandas.Series string :=
  {| Pandas.name := 2; Pandas.index := CANONICAL_COLUMNS; Pandas.values := mario_row |}.

(** A sheet that carries the account name twice, under the source label
    and under the canonical one. *)
Definition sheet_twice_named : Pandas.DataFrame string :=
  {| Pandas.columns := ["Shop ID"; "Account Name"; "AccountName"; "Billing City";
                        "Billing Zip/Postal Code"];
     Pandas.rows :=
       [ [Some "1"; Some "Tony's Pizza"; Some "Pizzeria A"; Some "Boston"; Some "02108"];
         [Some "2"; Some "Tony's Pizza"; Some "Pizzeria B"; Some "Lynn"; Some "01901"];
         [Some "3"; Some "Rosa's"; Some "Pizzeria A"; Some "Salem"; Some "01970"] ] |}.

(** A sheet that carries the city twice. *)
Definition sheet_two_cities : Pandas.DataFrame string :=
  {| Pandas.columns := ["Shop ID"; "Account Name"; "Billing City"; "BillingCity";
                        "Billing Zip/Postal Code"];
     Pandas.rows :=
       [ [Some "1"; Some "Tony's Pizza"; Some "Boston"; Some "Suffolk"; Some "02108"] ] |}.

Definition ambiguous_fs : FileSystem string :=
  {[ "names.xlsx" := Excel ({[ "All" := sheet_twice_named ]} : Workbook string);
     "cities.xlsx" := Excel ({[ "All" := sheet_two_cities ]} : Workbook string) ]}.

(** Every output path opens, or none does. *)
Definition writable : string -> result unit := fun _ => Ok tt.
Definition read_only : string -> result unit := fun _ => Raise PermissionError.

(** The relations between the website, the two flags and the note of an
    output row. *)
Definition row_consistent {V : Type} (r : OutputRow V) : Prop :=
  HasWebsite r = Str.truthy (Website r) /\
  (DirectOrdering r = true <-> Note r = "") /\
  (HasWebsite r = true /\ DirectOrdering r = false <-> Note r = NOTE_THIRD_PARTY) /\
  Note r ∈ [ ""; NOTE_NO_WEBSITE; NOTE_THIRD_PARTY; NOTE_PLACE_NOT_FOUND; NOTE_NO_API_KEY ].

(** The sample workbook with two more sheets that the loader does not
    read. *)
Definition store_map : Workbook string :=
  {[ "All" := sheet_all; "OO Partners" := sheet_partners ]}.

Definition store_map_with_notes : Workbook string :=
  <[ "Notes" := sheet_names_only ]> (<[ "Sheet1" := sheet_partners ]> store_map).

(** One of the three sheets is there. *)
Definition some_sheet_present {V : Type} `{PyValue V} (xls : Workbook V) : bool :=
  existsb (fun sheet => bool_decide (is_Some (xls !! sheet))) sheet_names.

(* ===================================================================== *)
(** * The models at work *)
(* ===================================================================== *)

Example classify_doordash :
  classify_website Urllib.netloc (Some "https://www.doordash.com/store/123") = (true, false).
Proof. reflexivity. Qed.

Example classify_own_site :
  classify_website Urllib.netloc (Some "https://order.tonyspizza.com") = (true, true).
Proof. reflexivity. Qed.

Example classify_upper :
  classify_website Urllib.netloc (Some "HTTP://WWW.GrubHub.COM/x?y#z") = (true, false).
Proof. reflexivity. Qed.

(** The component tested is [netloc]: a port, when written, is part of
    it. *)
Example classify_with_port :
  Urllib.netloc "https://www.grubhub.com:443/menu" = Some "www.grubhub.com:443" /\
  classify_website Urllib.netloc (Some "https://www.grubhub.com:443/menu") = (true, true).
Proof. split; reflexivity. Qed.

Example classify_bad_bracket :
  classify_website Urllib.netloc (Some "http://[::1/") = (true, false).
Proof. reflexivity. Qed.

Example load_sample :
  read_shops_from_excel sample_fs "Store Map.xlsx" = Ok sample_shops.
Proof. vm_compute. reflexivity. Qed.

Example load_missing_file :
  read_shops_from_excel sample_fs "nowhere.xlsx" = Raise FileNotFoundError.
Proof. vm_compute. reflexivity. Qed.

Example load_directory :
  read_shops_from_excel sample_fs "archive" = Raise IsADirectoryError.
Proof. vm_compute. reflexivity. Qed.

Example sample_run_online :
  ShopAnalysis.analyse_shops Urllib.netloc writable sample_service env_with_key sample_fs
    "Store Map.xlsx" "results.csv" (fresh (0 : service_state sample_service)) =
  (Ok {| header := CLASSIFICATION_HEADER;
         records :=
           [ {| ShopID := Pandas.Scalar (Some "1");
                AccountName := Pandas.Scalar (Some "Tony's Pizza");
                BillingCity := Pandas.Scalar (Some "Boston");
                BillingZip := Pandas.Scalar (Some "02108");
                Website := Some "https://www.doordash.com/store/123";
                HasWebsite := true; DirectOrdering := false;
                Note := NOTE_THIRD_PARTY |};
             {| ShopID := Pandas.Scalar (Some "2");
                AccountName := Pandas.Scalar (Some "Luigi's");
                BillingCity := Pandas.Scalar (Some "Salem");
                BillingZip := Pandas.Scalar (Some "01970");
                Website := Some "https://order.luigis.example";
                HasWebsite := true; DirectOrdering := true;
                Note := "" |};
             {| ShopID := Pandas.Scalar (Some "4");
                AccountName := Pandas.Scalar (Some "Mario's");
                BillingCity := Pandas.Scalar (Some "Cambridge");
                BillingZip := Pandas.Scalar (Some "02139");
                Website := None;
                HasWebsite := false; DirectOrdering := false;
                Note := NOTE_PLACE_NOT_FOUND |} ] |},
   {| remote := (5 : service_state sample_service);
      calls := [ FindPlaceCall "secret" "Tony's Pizza, Boston, MA";
                 PlaceDetailsCall "secret" "place-tony";
                 FindPlaceCall "secret" "Luigi's, Salem, MA";
                 PlaceDetailsCall "secret" "place-luigi";
                 FindPlaceCall "secret" "Mario's, Cambridge, MA" ];
      sleeps := 3;
      stdout := [] |}).
Proof. vm_compute. reflexivity. Qed.

Example sample_run_offline :
  ShopAnalysis.analyse_shops Urllib.netloc writable sample_service env_without_key sample_fs
    "Store Map.xlsx" "results.csv" (fresh (0 : service_state sample_service)) =
  (Ok {| header := CLASSIFICATION_HEADER;
         records := map offline_row (Pandas.iterrows sample_shops) |},
   {| remote := (0 : service_state sample_service);
      calls := []; sleeps := 0; stdout := [WARNING_NO_KEY] |}).
Proof. vm_compute. reflexivity. Qed.

(** An output path that does not open: shop_analysis.py stops before the
    first request, extended_analysis.py after the last one. *)
Example sample_run_unwritable :
  ShopAnalysis.analyse_shops Urllib.netloc read_only sample_service env_with_key sample_fs
    "Store Map.xlsx" "results.csv" (fresh (0 : service_state sample_service)) =
  (Raise PermissionError, fresh (0 : service_state sample_service)) /\
  ExtendedAnalysis.analyse_shops Urllib.netloc read_only sample_service env_with_key
    sample_fs "Store Map.xlsx" "results.csv" None
    (fresh (0 : service_state sample_service)) =
  (Raise PermissionError,
   {| remote := (5 : service_state sample_service);
      calls := [ FindPlaceCall "secret" "Tony's Pizza, Boston, MA";
                 PlaceDetailsCall "secret" "place-tony";
                 FindPlaceCall "secret" "Luigi's, Salem, MA";
                 PlaceDetailsCall "secret" "place-luigi";
                 FindPlaceCall "secret" "Mario's, Cambridge, MA" ];
      sleeps := 3;
      stdout := [] |}).
Proof. split; vm_compute; reflexivity. Qed.

(** A sheet with the city under two labels loads to a frame with two
    BillingCity columns.  With a key, building the first query raises
    [ValueError] before any request; without one, the run completes and
    the row holds the Series of the two cities. *)
Example sample_run_two_cities :
  read_shops_from_excel ambiguous_fs "cities.xlsx" =
  Ok {| Pandas.columns := ["ShopID"; "AccountName"; "BillingCity"; "BillingCity";
                           "BillingZip"];
        Pandas.rows := [ [Some "1"; Some "Tony's Pizza"; Some "Boston"; Some "Suffolk";
                          Some "02108"] ] |} /\
  ShopAnalysis.analyse_shops Urllib.netloc writable sample_service env_with_key
    ambiguous_fs "cities.xlsx" "results.csv" (fresh (0 : service_state sample_service)) =
  (Raise ValueError, fresh (0 : service_state sample_service)) /\
  fst (ShopAnalysis.analyse_shops Urllib.netloc writable sample_service env_without_key
         ambiguous_fs "cities.xlsx" "results.csv"
         (fresh (0 : service_state sample_service))) =
  Ok {| header := CLASSIFICATION_HEADER;
        records :=
          [ {| ShopID := Pandas.Scalar (Some "1");
               AccountName := Pandas.Scalar (Some "Tony's Pizza");
               BillingCity :=
                 Pandas.SubSeries
                   {| Pandas.name := 0;
                      Pandas.index := ["BillingCity"; "BillingCity"];
                      Pandas.values := [Some "Boston"; Some "Suffolk"] |};
               BillingZip := Pandas.Scalar (Some "02108");
               Website := None; HasWebsite := false; DirectOrdering := false;
               Note := NOTE_NO_API_KEY |} ] |}.
Proof. repeat split; vm_compute; reflexivity. Qed.

(* ===================================================================== *)
(** * Properties of the string operations *)
(* ===================================================================== *)

Lemma append_nil_l (t : string) : "" ++ t = t.
Proof. reflexivity. Qed.

Lemma append_cons (c : ascii) (s t : string) : String c s ++ t = String c (s ++ t).
Proof. reflexivity. Qed.

(** [endswith] is the suffix relation. *)
Lemma endswith_spec (s t : string) :
  Str.endswith s t = true <-> exists p, s = p ++ t.
Proof.
  induction s as [|c s IH]; cbn [Str.endswith].
  - rewrite orb_false_r, String.eqb_eq. split.
    + intros <-. by exists "".
    + intros [p Hp]. destruct p; [by rewrite append_nil_l in Hp | discriminate].
  - rewrite orb_true_iff, String.eqb_eq, IH. split.
    + intros [<- | [p ->]]; [by exists "" | by exists (String c p)].
    + intros [p Hp]. destruct p as [|d p].
      * left. by rewrite append_nil_l in Hp.
      * right. exists p. rewrite append_cons in Hp. congruence.
Qed.

(** Stripping leading characters of a set never changes whether the string
    ends with [t], as long as [t] starts outside the set. *)
Lemma endswith_lstrip_by (p : ascii -> bool) (s : string) (c : ascii) (t : string) :
  p c = false ->
  Str.endswith (Str.lstrip_by p s) (String c t) = Str.endswith s (String c t).
Proof.
  intros Hc. induction s as [|a s IH]; [reflexivity|].
  cbn [Str.lstrip_by]. destruct (p a) eqn:Ha; [|reflexivity].
  rewrite IH. cbn [Str.endswith].
  destruct (String.eqb_spec (String a s) (String c t)) as [E|_]; [|reflexivity].
  congruence.
Qed.



(** On ASCII text [lower] is the lowering of the ASCII letters. *)
Lemma lower_empty `{Str.Lower} : Str.lower "" = "".
Proof. by rewrite Str.lower_ascii. Qed.

(* ===================================================================== *)
(** * Properties of the domain classifier *)
(* ===================================================================== *)

Lemma third_party_domains_elements (d : string) :
  In d THIRD_PARTY_DOMAINS <-> d ∈ AGGREGATOR_DOMAINS.
Proof.
  rewrite (list_elem_of_In AGGREGATOR_DOMAINS d). simpl. tauto.
Qed.

Lemma is_third_party_spec (domain : string) :
  is_third_party domain = true <-> ends_with_aggregator domain.
Proof.
  unfold is_third_party, ends_with_aggregator. rewrite existsb_exists. split.
  - intros (d & Hd & He). apply endswith_spec in He as [p Hp].
    exists d, p. by rewrite <- third_party_domains_elements.
  - intros (d & p & Hd & Hp). exists d. split.
    + by apply third_party_domains_elements.
    + apply endswith_spec. by exists p.
Qed.

(** No aggregator domain starts with [w] or a dot, so neither the
    character-set strip of the code nor the literal prefix removal of the
    specification can touch the suffix that is tested. *)
Lemma is_third_party_lstrip (host : string) :
  is_third_party (Str.lstrip "www." host) = is_third_party host.
Proof.
  unfold is_third_party, THIRD_PARTY_DOMAINS, Str.lstrip. cbn [existsb].
  by rewrite !endswith_lstrip_by by reflexivity.
Qed.



Lemma classify_website_nonempty `{Str.Lower}
    (urlparse_netloc : string -> option string) (w : string) :
  w <> "" ->
  classify_website urlparse_netloc (Some w) =
  match urlparse_netloc w with
  | Some netloc =>
      if is_third_party (normalise_domain netloc) then (true, false) else (true, true)
  | None => (true, false)
  end.
Proof. destruct w; [done | reflexivity]. Qed.




(** C8. The step written as "remove the www. prefix" strips a set of
    characters: on the host [wwwabc.com], which does not start with the
    literal prefix [www.], the code removes the three leading [w], where
    the literal prefix removal leaves the host as it is. *)
Theorem normalise_domain_strips_character_set `{Str.Lower} :
  normalise_domain "wwwabc.com" = "abc.com" /\
  strip_www_prefix (Str.lower "wwwabc.com") = "wwwabc.com".
Proof.
  unfold normalise_domain. rewrite (Str.lower_ascii "wwwabc.com") by reflexivity.
  split; reflexivity.
Qed.

(** The same strip on other hosts: dots go too, and a host made of [w]
    and dots only is emptied. *)
Example normalise_domain_more `{Str.Lower} :
  normalise_domain "w.example.org" = "example.org" /\
  normalise_domain "www.www.web.example" = "eb.example" /\
  normalise_domain "WWW..w" = "".
Proof.
  unfold normalise_domain. rewrite !Str.lower_ascii by reflexivity.
  repeat split; reflexivity.
Qed.

(** C10. A non-empty website whose parsed host component,
    [urlparse(website).netloc], is empty is classified (true, true): no
    aggregator domain is a suffix of the empty host.  A bare domain
    written without a scheme, such as [doordash.com], has an empty
    parsed host, and so counts as direct ordering. *)
Theorem classify_website_empty_host `{Str.Lower}
    (urlparse_netloc : string -> option string) (w : string) :
  w <> "" -> urlparse_netloc w = Some "" ->
  classify_website urlparse_netloc (Some w) = (true, true).
Proof.
  intros Hw Hhost. rewrite (classify_website_nonempty _ _ Hw), Hhost.
  unfold normalise_domain. by rewrite lower_empty.
Qed.

Lemma classify_website_empty_host_witness :
  classify_website Urllib.netloc (Some "doordash.com") = (true, true).
Proof.
  apply (classify_website_empty_host Urllib.netloc "doordash.com").
  - discriminate.
  - reflexivity.
Defined.

Lemma is_domain_char_plain (c : ascii) :
  is_domain_char c = true ->
  Urllib.is_c0_control_or_space c = false /\
  Urllib.is_unsafe_byte c = false /\
  Ascii.eqb c ":" = false /\ Ascii.eqb c "/" = false.
Proof.
  destruct c as [[] [] [] [] [] [] [] []]; vm_compute; intros Hc;
    first [discriminate Hc | repeat split].
Qed.

Lemma bare_domain_untouched (url : string) :
  Str.all_chars is_domain_char url = true ->
  Str.lstrip_by Urllib.is_c0_control_or_space url = url /\
  Str.filter_chars (fun c => negb (Urllib.is_unsafe_byte c)) url = url /\
  Str.partition_char ":" url = None.
Proof.
  induction url as [|c url IH]; [done|].
  cbn [Str.all_chars]. rewrite andb_true_iff. intros [Hc Hurl].
  destruct (is_domain_char_plain c Hc) as (Hc0 & Hun & Hcolon & _).
  destruct (IH Hurl) as (_ & Hfilter & Hpart).
  cbn [Str.lstrip_by Str.filter_chars Str.partition_char].
  by rewrite Hc0, Hun, Hcolon, Hfilter, Hpart.
Qed.

(** Every non-empty string of letters, digits, dots and hyphens (a domain
    name with no scheme in front) has an empty [netloc], whatever the
    domain: aggregator domains included. *)
Lemma bare_domain_is_direct `{Str.Lower} (url : string) :
  url <> "" -> Str.all_chars is_domain_char url = true ->
  Urllib.netloc url = Some "" /\
  classify_website Urllib.netloc (Some url) = (true, true).
Proof.
  intros Hne Hall.
  assert (Urllib.netloc url = Some "") as Hnl.
  { destruct (bare_domain_untouched url Hall) as (Hstrip & Hfilter & Hpart).
    unfold Urllib.netloc, Urllib.drop_scheme.
    rewrite Hstrip, Hfilter, Hpart.
    destruct url as [|c url]; [done|].
    cbn [Str.all_chars] in Hall. apply andb_true_iff in Hall as [Hc _].
    destruct (is_domain_char_plain c Hc) as (_ & _ & _ & Hslash).
    destruct c as [[] [] [] [] [] [] [] []]; try reflexivity.
    discriminate Hslash. }
  split; [exact Hnl|]. rewrite (classify_website_nonempty _ _ Hne), Hnl.
  unfold normalise_domain. by rewrite lower_empty.
Qed.

(* ===================================================================== *)
(** * Properties of the message composer *)
(* ===================================================================== *)

Lemma append_assoc (a b c : string) : (a ++ b) ++ c = a ++ (b ++ c).
Proof.
  induction a as [|x a IH]; [reflexivity|].
  by rewrite !append_cons, IH.
Qed.

Lemma prefix_append (a b : string) : String.prefix a (a ++ b) = true.
Proof.
  induction a as [|x a IH]; [by destruct b|].
  rewrite append_cons. cbn [String.prefix].
  destruct (ascii_dec x x); [exact IH | done].
Qed.

(** C9. The composer is a function of its three arguments that picks one
    of three fixed templates by case on the two flags: the first whenever
    there is no website, the second for a website without direct
    ordering, the third for a website with direct ordering; the three
    subjects differ.  With both flags false the subject contains
    [custom website] and the SMS text starts with the name followed by a
    colon. *)
Theorem generate_messages_templates :
  (forall name direct, generate_messages name false direct = no_website_message name) /\
  (forall name, generate_messages name true false = third_party_message name) /\
  (forall name, generate_messages name true true = direct_message name) /\
  (forall n1 n2 n3,
     subject (no_website_message n1) <> subject (third_party_message n2) /\
     subject (no_website_message n1) <> subject (direct_message n3) /\
     subject (third_party_message n2) <> subject (direct_message n3)) /\
  (forall name,
     Str.contains (subject (generate_messages name false false)) "custom website" = true /\
     Str.startswith (sms (generate_messages name false false)) (name ++ ":") = true /\
     exists rest, sms (generate_messages name false false) = name ++ ":" ++ rest).
Proof.
  split; [reflexivity|]. split; [reflexivity|]. split; [reflexivity|].
  split; [intros; repeat split; discriminate|].
  intros name. split; [reflexivity|].
  assert (exists rest, sms (generate_messages name false false) = name ++ ":" ++ rest)
    as [rest Hrest].
  { eexists. cbn [generate_messages negb no_website_message sms]. reflexivity. }
  split; [|by exists rest].
  unfold Str.startswith. rewrite Hrest, <- append_assoc. apply prefix_append.
Qed.

Example generate_messages_tonys :
  subject (generate_messages "Tony's" false false) =
    "Grow your pizzeria with a custom website and phone ordering" /\
  sms (generate_messages "Tony's" false false) =
    "Tony's: We can build you a custom website and phone ordering solution through Slice, plus discounted delivery and a POS built for pizzerias.".
Proof. split; reflexivity. Qed.

(* ===================================================================== *)
(** * Properties of the batch loop *)
(* ===================================================================== *)

Lemma classify_website_direct_has_site `{Str.Lower}
    (urlparse_netloc : string -> option string) (website : option string) :
  snd (classify_website urlparse_netloc website) = true ->
  fst (classify_website urlparse_netloc website) = true.
Proof.
  unfold classify_website.
  destruct (Str.truthy website); cbn [negb]; [|discriminate].
  destruct (urlparse_netloc _) as [netloc|]; [|discriminate].
  by destruct (is_third_party _).
Qed.

Section LoopBody.

Context {V : Type} `{PyValue V} `{Str.Lower}.
Variable urlparse_netloc : string -> option string.
Variable svc : Service.

Local Abbreviation loop_body := (classify_shop urlparse_netloc svc).
Local Abbreviation write_loop := (ShopAnalysis.write_rows urlparse_netloc svc).
Local Abbreviation collect_loop := (ExtendedAnalysis.collect_rows urlparse_netloc svc).

(** The row written when no key is configured. *)
Lemma classify_shop_offline api_key (row : Pandas.Series V) s :
  Str.truthy api_key = false ->
  loop_body api_key row s = (Ok (offline_row row), s).
Proof. intros Hkey. unfold classify_shop. by rewrite Hkey. Qed.

(** With a key, a query that cannot be built ends the loop body before
    any request. *)
Lemma classify_shop_unbuilt api_key (row : Pandas.Series V) s e :
  Str.truthy api_key = true ->
  shop_query row = Raise e ->
  loop_body api_key row s = (Raise e, s).
Proof.
  intros Hkey Hquery. unfold classify_shop, shop_query in *.
  rewrite Hkey. unfold try_bind, ret. by rewrite Hquery.
Qed.

(** The row written when the search yields no usable place id. *)
Lemma classify_shop_not_found api_key (row : Pandas.Series V) s query place_id s1 :
  Str.truthy api_key = true ->
  shop_query row = Ok query ->
  query_google_places (default "" api_key) query s = (place_id, s1) ->
  Str.truthy place_id = false ->
  loop_body api_key row s =
  (Ok (output_row row None false false NOTE_PLACE_NOT_FOUND), s1).
Proof.
  intros Hkey Hquery Hfind Hpid. unfold classify_shop, shop_query in *.
  rewrite Hkey. unfold try_bind, ret at 1. rewrite Hquery.
  unfold Ok at 1. unfold bind at 1. by rewrite Hfind, Hpid.
Qed.

(** The row written when the search yields a place id. *)
Lemma classify_shop_found api_key (row : Pandas.Series V)
    s query place_id s1 website url s2 :
  Str.truthy api_key = true ->
  shop_query row = Ok query ->
  query_google_places (default "" api_key) query s = (place_id, s1) ->
  Str.truthy place_id = true ->
  get_place_details (default "" api_key) (default "" place_id) s1 =
    ((website, url), s2) ->
  loop_body api_key row s =
  (let has_site := fst (classify_website urlparse_netloc website) in
   let direct := snd (classify_website urlparse_netloc website) in
   Ok (output_row row website has_site direct
         (if negb has_site then NOTE_NO_WEBSITE
          else if negb direct then NOTE_THIRD_PARTY else "")), s2).
Proof.
  intros Hkey Hquery Hfind Hpid Hdet. unfold classify_shop, shop_query in *.
  rewrite Hkey. unfold try_bind, ret at 1. rewrite Hquery.
  unfold Ok at 1. unfold bind at 1. rewrite Hfind, Hpid.
  unfold bind at 1. rewrite Hdet. cbn [fst].
  by destruct (classify_website urlparse_netloc website) as [has_site direct].
Qed.

(** The four ways through the loop body. *)
Lemma classify_shop_cases api_key (row : Pandas.Series V) s :
  (Str.truthy api_key = false /\
   loop_body api_key row s = (Ok (offline_row row), s)) \/
  (Str.truthy api_key = true /\ exists e,
     shop_query row = Raise e /\ loop_body api_key row s = (Raise e, s)) \/
  (Str.truthy api_key = true /\ exists query place_id s1,
     shop_query row = Ok query /\
     query_google_places (default "" api_key) query s = (place_id, s1) /\
     Str.truthy place_id = false /\
     loop_body api_key row s =
       (Ok (output_row row None false false NOTE_PLACE_NOT_FOUND), s1)) \/
  (Str.truthy api_key = true /\ exists query place_id s1 website url s2,
     shop_query row = Ok query /\
     query_google_places (default "" api_key) query s = (place_id, s1) /\
     Str.truthy place_id = true /\
     get_place_details (default "" api_key) (default "" place_id) s1 =
       ((website, url), s2) /\
     loop_body api_key row s =
       (let has_site := fst (classify_website urlparse_netloc website) in
        let direct := snd (classify_website urlparse_netloc website) in
        Ok (output_row row website has_site direct
              (if negb has_site then NOTE_NO_WEBSITE
               else if negb direct then NOTE_THIRD_PARTY else "")), s2)).
Proof.
  destruct (Str.truthy api_key) eqn:Hkey.
  - right. destruct (shop_query row) as [e|query] eqn:Hquery.
    + left. split; [reflexivity|]. exists e. split; [reflexivity|].
      by apply classify_shop_unbuilt.
    + right.
      destruct (query_google_places (default "" api_key) query s)
        as [place_id s1] eqn:Hfind.
      destruct (Str.truthy place_id) eqn:Hpid.
      * right. split; [reflexivity|].
        destruct (get_place_details (default "" api_key) (default "" place_id) s1)
          as [[website url] s2] eqn:Hdet.
        exists query, place_id, s1, website, url, s2.
        repeat split; try assumption. by eapply classify_shop_found.
      * left. split; [reflexivity|]. exists query, place_id, s1.
        repeat split; try assumption. by eapply classify_shop_not_found.
  - left. split; [reflexivity|]. by apply classify_shop_offline.
Qed.

(** Every row the loop body writes satisfies
    [DirectOrdering -> HasWebsite]. *)
Lemma classify_shop_direct_has_site api_key (row : Pandas.Series V) s r s' :
  loop_body api_key row s = (Ok r, s') ->
  DirectOrdering r = true -> HasWebsite r = true.
Proof.
  destruct (classify_shop_cases api_key row s)
    as [[_ ->]|[(_ & e & _ & ->)|[(_ & query & place_id & s1 & _ & _ & _ & ->)
       |(_ & query & place_id & s1 & website & url & s2 & _ & _ & _ & _ & ->)]]].
  - intros [= <- <-]. discriminate.
  - discriminate.
  - intros [= <- <-]. discriminate.
  - cbv zeta. intros [= <- <-]. cbn [output_row DirectOrdering HasWebsite].
    apply classify_website_direct_has_site.
Qed.

(** One turn of either loop. *)
Lemma write_rows_cons api_key row (rows : list (Pandas.Series V)) s :
  write_loop api_key (row :: rows) s =
  match loop_body api_key row s with
  | (inl e, s1) => (Raise e, s1)
  | (inr r, s1) =>
      match write_loop api_key rows (snd (throttle svc api_key s1)) with
      | (inl e, s3) => (Raise e, s3)
      | (inr rs, s3) => (Ok (r :: rs), s3)
      end
  end.
Proof.
  cbn [ShopAnalysis.write_rows]. unfold try_bind at 1.
  destruct (loop_body api_key row s) as [[e|r] s1]; [reflexivity|].
  unfold bind at 1. destruct (throttle svc api_key s1) as [[] s2]. cbn [snd].
  unfold try_bind at 1.
  by destruct (write_loop api_key rows s2) as [[e|rs] s3].
Qed.

Lemma collect_rows_cons api_key row (rows : list (Pandas.Series V)) s :
  collect_loop api_key (row :: rows) s =
  match loop_body api_key row s with
  | (inl e, s1) => (Raise e, s1)
  | (inr r, s1) =>
      match collect_loop api_key rows (snd (throttle svc api_key s1)) with
      | (inl e, s3) => (Raise e, s3)
      | (inr rest, s3) =>
          (Ok (r :: fst rest, ExtendedAnalysis.message_row r :: snd rest), s3)
      end
  end.
Proof.
  cbn [ExtendedAnalysis.collect_rows]. unfold try_bind at 1.
  destruct (loop_body api_key row s) as [[e|r] s1]; [reflexivity|].
  unfold bind at 1. destruct (throttle svc api_key s1) as [[] s2]. cbn [snd].
  unfold try_bind at 1.
  by destruct (collect_loop api_key rows s2) as [[e|rest] s3].
Qed.

(** The loop of extended_analysis.py is the loop of shop_analysis.py with
    one message composed from each row written. *)
Lemma collect_rows_write_rows api_key (rows : list (Pandas.Series V)) s :
  collect_loop api_key rows s =
  match write_loop api_key rows s with
  | (inl e, s') => (Raise e, s')
  | (inr rs, s') => (Ok (rs, map ExtendedAnalysis.message_row rs), s')
  end.
Proof.
  revert s. induction rows as [|row rows IH]; intros s; [reflexivity|].
  rewrite write_rows_cons, collect_rows_cons.
  destruct (loop_body api_key row s) as [[e|r] s1]; [reflexivity|].
  rewrite IH.
  by destruct (write_loop api_key rows _) as [[e|rs] s3].
Qed.

(** Whatever holds of the rows the loop body writes holds of every row
    the loop writes. *)
Lemma write_rows_Forall (P : OutputRow V -> Prop) api_key :
  (forall row s r s', loop_body api_key row s = (Ok r, s') -> P r) ->
  forall rows s rs s', write_loop api_key rows s = (Ok rs, s') -> Forall P rs.
Proof.
  intros HP rows. induction rows as [|row rows IH]; intros s rs s'.
  - intros [= <- <-]. constructor.
  - rewrite write_rows_cons.
    destruct (loop_body api_key row s) as [[e|r] s1] eqn:Hrow; [discriminate|].
    destruct (write_loop api_key rows _) as [[e|rs'] s3] eqn:Hrest; [discriminate|].
    intros [= <- <-]. constructor; [by eapply HP | by eapply IH].
Qed.


(** Without a key the loop writes the offline rows and touches
    nothing. *)
Lemma write_rows_offline api_key (rows : list (Pandas.Series V)) s :
  Str.truthy api_key = false ->
  write_loop api_key rows s = (Ok (map offline_row rows), s).
Proof.
  intros Hkey. revert s. induction rows as [|row rows IH]; intros s; [reflexivity|].
  rewrite write_rows_cons, (classify_shop_offline _ _ _ Hkey).
  unfold Ok at 1. unfold throttle. rewrite Hkey. cbn [ret snd]. by rewrite IH.
Qed.

Lemma warn_if_no_key_offline api_key (s : run_state svc) :
  Str.truthy api_key = false ->
  warn_if_no_key svc api_key s =
  (tt, {| remote := remote s; calls := calls s; sleeps := sleeps s;
          stdout := stdout s ++ [WARNING_NO_KEY] |}).
Proof. intros Hkey. unfold warn_if_no_key. by rewrite Hkey. Qed.

Lemma warn_if_no_key_online api_key (s : run_state svc) :
  Str.truthy api_key = true -> warn_if_no_key svc api_key s = (tt, s).
Proof. intros Hkey. unfold warn_if_no_key. by rewrite Hkey. Qed.

(** The warning changes the printed lines and nothing else. *)
Lemma warn_if_no_key_effect api_key (s : run_state svc) :
  remote (snd (warn_if_no_key svc api_key s)) = remote s /\
  calls (snd (warn_if_no_key svc api_key s)) = calls s /\
  sleeps (snd (warn_if_no_key svc api_key s)) = sleeps s.
Proof. unfold warn_if_no_key. by destruct (negb _). Qed.

Section WholeRun.

Variable open_w : string -> result unit.

Local Abbreviation basic := (ShopAnalysis.analyse_shops urlparse_netloc open_w svc).
Local Abbreviation extended := (ExtendedAnalysis.analyse_shops urlparse_netloc open_w svc).

(** shop_analysis.py, step by step: the warning, the workbook, the
    output file, the loop. *)
Lemma analyse_shops_unfold env (fs : FileSystem V) input_file output_file s :
  basic env fs input_file output_file s =
  let api_key := getenv env "GOOGLE_API_KEY" in
  let s0 := snd (warn_if_no_key svc api_key s) in
  match read_shops_from_excel fs input_file with
  | inl e => (Raise e, s0)
  | inr shops =>
      match open_w output_file with
      | inl e => (Raise e, s0)
      | inr _ =>
          match write_loop api_key (Pandas.iterrows shops) s0 with
          | (inl e, s1) => (Raise e, s1)
          | (inr rs, s1) =>
              (Ok {| header := CLASSIFICATION_HEADER; records := rs |}, s1)
          end
      end
  end.
Proof.
  unfold ShopAnalysis.analyse_shops. unfold bind at 1.
  destruct (warn_if_no_key svc _ s) as [[] s0]. cbn [snd].
  unfold try_bind at 1, ret at 1.
  destruct (read_shops_from_excel fs input_file) as [e|shops]; [reflexivity|].
  unfold try_bind at 1, ret at 1.
  destruct (open_w output_file) as [e|f]; [reflexivity|].
  unfold try_bind at 1.
  by destruct (write_loop _ _ s0) as [[e|rs] s1].
Qed.

(** extended_analysis.py, step by step: the warning, the workbook, the
    loop, the output file, the message file. *)
Lemma analyse_shops_ext_unfold env (fs : FileSystem V)
    input_file output_file message_output_file s :
  extended env fs input_file output_file message_output_file s =
  let api_key := getenv env "GOOGLE_API_KEY" in
  let s0 := snd (warn_if_no_key svc api_key s) in
  match read_shops_from_excel fs input_file with
  | inl e => (Raise e, s0)
  | inr shops =>
      match write_loop api_key (Pandas.iterrows shops) s0 with
      | (inl e, s1) => (Raise e, s1)
      | (inr rs, s1) =>
          let classifications :=
            {| header := CLASSIFICATION_HEADER; records := rs |} in
          match open_w output_file with
          | inl e => (Raise e, s1)
          | inr _ =>
              if Str.truthy message_output_file then
                match open_w (default "" message_output_file) with
                | inl e => (Raise e, s1)
                | inr _ =>
                    (Ok (classifications,
                         Some {| header := MESSAGE_HEADER;
                                 records := map ExtendedAnalysis.message_row rs |}),
                     s1)
                end
              else (Ok (classifications, None), s1)
          end
      end
  end.
Proof.
  unfold ExtendedAnalysis.analyse_shops. unfold bind at 1.
  destruct (warn_if_no_key svc _ s) as [[] s0]. cbn [snd].
  unfold try_bind at 1, ret at 1.
  destruct (read_shops_from_excel fs input_file) as [e|shops]; [reflexivity|].
  unfold try_bind at 1. rewrite collect_rows_write_rows.
  destruct (write_loop _ _ s0) as [[e|rs] s1]; [reflexivity|].
  unfold Ok at 1. unfold try_bind at 1, ret at 1.
  destruct (open_w output_file) as [e|f]; [reflexivity|].
  cbn [fst snd].
  destruct (Str.truthy message_output_file); [|reflexivity].
  unfold try_bind, ret.
  by destruct (open_w (default "" message_output_file)) as [e|fmsg].
Qed.

(** The records of a completed run are the rows written by the loop
    over the loaded frame. *)
Lemma analyse_shops_records env (fs : FileSystem V) input_file output_file s out s' :
  basic env fs input_file output_file s = (Ok out, s') ->
  exists shops,
    read_shops_from_excel fs input_file = Ok shops /\
    open_w output_file = Ok tt /\
    header out = CLASSIFICATION_HEADER /\
    write_loop (getenv env "GOOGLE_API_KEY") (Pandas.iterrows shops)
      (snd (warn_if_no_key svc (getenv env "GOOGLE_API_KEY") s)) = (Ok (records out), s').
Proof.
  rewrite analyse_shops_unfold. cbv zeta.
  destruct (read_shops_from_excel fs input_file) as [e|shops]; [discriminate|].
  destruct (open_w output_file) as [e|[]]; [discriminate|].
  destruct (write_loop _ _ _) as [[e|rs] s1] eqn:Hrows; [discriminate|].
  intros [= <- <-]. by exists shops.
Qed.

Lemma analyse_shops_ext_records env (fs : FileSystem V)
    input_file output_file message_output_file s out s' :
  extended env fs input_file output_file message_output_file s = (Ok out, s') ->
  exists shops,
    read_shops_from_excel fs input_file = Ok shops /\
    open_w output_file = Ok tt /\
    header (fst out) = CLASSIFICATION_HEADER /\
    write_loop (getenv env "GOOGLE_API_KEY") (Pandas.iterrows shops)
      (snd (warn_if_no_key svc (getenv env "GOOGLE_API_KEY") s))
      = (Ok (records (fst out)), s') /\
    snd out =
      if Str.truthy message_output_file
      then Some {| header := MESSAGE_HEADER;
                   records := map ExtendedAnalysis.message_row (records (fst out)) |}
      else None.
Proof.
  rewrite analyse_shops_ext_unfold. cbv zeta.
  destruct (read_shops_from_excel fs input_file) as [e|shops]; [discriminate|].
  destruct (write_loop _ _ _) as [[e|rs] s1] eqn:Hrows; [discriminate|].
  destruct (open_w output_file) as [e|[]]; [discriminate|].
  destruct (Str.truthy message_output_file) eqn:Hmsg.
  - destruct (open_w (default "" message_output_file)) as [e|[]]; [discriminate|].
    intros [= <- <-]. by exists shops.
  - intros [= <- <-]. by exists shops.
Qed.

End WholeRun.

End LoopBody.

Lemma Forall_lookup_elim {A : Type} (P : A -> Prop) (l : list A) (i : nat) (x : A) :
  Forall P l -> l !! i = Some x -> P x.
Proof. intros Hall Hx. exact (proj1 (Forall_lookup P l) Hall i x Hx). Qed.

(** C1. The classifier never answers (has_website = false, direct = true),
    and in both scripts every row of a completed run, with or without an
    API key and whatever the service returns, has [DirectOrdering] only
    together with [HasWebsite]. *)
Theorem direct_ordering_implies_has_website {V : Type} `{PyValue V} `{Str.Lower}
    (urlparse_netloc : string -> option string) (open_w : string -> result unit)
    (svc : Service) :
  (forall website, classify_website urlparse_netloc website <> (false, true)) /\
  (forall env (fs : FileSystem V) input_file output_file s out s' i r,
     ShopAnalysis.analyse_shops urlparse_netloc open_w svc env fs input_file output_file s
       = (Ok out, s') ->
     records out !! i = Some r ->
     DirectOrdering r = true -> HasWebsite r = true) /\
  (forall env (fs : FileSystem V) input_file output_file messages_file s out s' i r,
     ExtendedAnalysis.analyse_shops urlparse_netloc open_w svc env fs input_file
       output_file messages_file s = (Ok out, s') ->
     records (fst out) !! i = Some r ->
     DirectOrdering r = true -> HasWebsite r = true).
Proof.
  split; [|split].
  - intros website Heq.
    pose proof (classify_website_direct_has_site urlparse_netloc website) as Himp.
    rewrite Heq in Himp. by specialize (Himp eq_refl).
  - intros env fs input_file output_file s out s' i r Hrun Hr.
    destruct (analyse_shops_records _ _ _ _ _ _ _ _ _ _ Hrun)
      as (shops & _ & _ & _ & Hrows).
    eapply (Forall_lookup_elim
              (fun r => DirectOrdering r = true -> HasWebsite r = true));
      [|exact Hr].
    eapply write_rows_Forall; [|exact Hrows].
    intros row s1 r1 s2. apply classify_shop_direct_has_site.
  - intros env fs input_file output_file messages_file s out s' i r Hrun Hr.
    destruct (analyse_shops_ext_records _ _ _ _ _ _ _ _ _ _ _ Hrun)
      as (shops & _ & _ & _ & Hrows & _).
    eapply (Forall_lookup_elim
              (fun r => DirectOrdering r = true -> HasWebsite r = true));
      [|exact Hr].
    eapply write_rows_Forall; [|exact Hrows].
    intros row s1 r1 s2. apply classify_shop_direct_has_site.
Qed.

Lemma direct_ordering_implies_has_website_witness :
  HasWebsite
    {| ShopID := Pandas.Scalar (Some "2"); AccountName := Pandas.Scalar (Some "Luigi's");
       BillingCity := Pandas.Scalar (Some "Salem");
       BillingZip := Pandas.Scalar (Some "01970");
       Website := Some "https://order.luigis.example";
       HasWebsite := true; DirectOrdering := true; Note := "" |} = true.
Proof.
  eapply (proj1 (proj2 (direct_ordering_implies_has_website Urllib.netloc writable
                          sample_service))
            env_with_key sample_fs "Store Map.xlsx" "results.csv"
            (fresh (0 : service_state sample_service)) _ _ 1).
  - vm_compute. reflexivity.
  - reflexivity.
  - reflexivity.
Defined.

(** C3. With no API key configured (the variable unset or empty), a run of
    [analyse_shops] makes no request to the service and never sleeps;
    whenever the workbook loads and the output file opens it writes one
    row per loaded entity; and every row written has Website [None] (an
    empty CSV field), HasWebsite and DirectOrdering false, and the note
    [API key not provided]. *)
Theorem offline_mode {V : Type} `{PyValue V} `{Str.Lower}
    (urlparse_netloc : string -> option string) (open_w : string -> result unit)
    (svc : Service)
    env (fs : FileSystem V) input_file output_file (s : run_state svc) outcome s' :
  Str.truthy (getenv env "GOOGLE_API_KEY") = false ->
  ShopAnalysis.analyse_shops urlparse_netloc open_w svc env fs input_file output_file s
    = (outcome, s') ->
  calls s' = calls s /\ remote s' = remote s /\ sleeps s' = sleeps s /\
  (forall shops, read_shops_from_excel fs input_file = Ok shops ->
     open_w output_file = Ok tt ->
     exists out, outcome = Ok out /\
       length (records out) = length (Pandas.rows shops)) /\
  (forall out i r, outcome = Ok out -> records out !! i = Some r ->
     Website r = None /\ csv_field (Website r) = "" /\
     HasWebsite r = false /\ DirectOrdering r = false /\
     Note r = "API key not provided").
Proof.
  intros Hkey. rewrite analyse_shops_unfold. cbv zeta.
  rewrite (warn_if_no_key_offline _ _ _ Hkey). cbn [snd].
  destruct (read_shops_from_excel fs input_file) as [e|shops] eqn:Hload.
  - intros [= <- <-]. cbn. do 3 (split; [reflexivity|]). split.
    + intros shops [=].
    + intros out i r [=].
  - destruct (open_w output_file) as [e|[]] eqn:Hopen.
    + intros [= <- <-]. cbn. do 3 (split; [reflexivity|]). split.
      * intros shops' _ [=].
      * intros out i r [=].
    + rewrite (write_rows_offline _ _ _ _ _ Hkey).
      intros [= <- <-]. cbn. do 3 (split; [reflexivity|]). split.
      * intros shops' [= <-] _. eexists. split; [reflexivity|].
        cbn [records]. unfold Pandas.iterrows. by rewrite length_map, length_imap.
      * intros out i r [= <-] Hr. cbn [records] in Hr.
        apply list_lookup_fmap_Some in Hr as (row & -> & _). by repeat split.
Qed.

Lemma offline_mode_witness :
  Str.truthy (getenv env_without_key "GOOGLE_API_KEY") = false /\
  calls (snd (ShopAnalysis.analyse_shops Urllib.netloc writable sample_service
                env_without_key sample_fs "Store Map.xlsx" "results.csv"
                (fresh (0 : service_state sample_service)))) = [] /\
  forall out i r,
    fst (ShopAnalysis.analyse_shops Urllib.netloc writable sample_service env_without_key
           sample_fs "Store Map.xlsx" "results.csv"
           (fresh (0 : service_state sample_service))) = Ok out ->
    records out !! i = Some r ->
    Website r = None /\ csv_field (Website r) = "" /\
    HasWebsite r = false /\ DirectOrdering r = false /\
    Note r = "API key not provided".
Proof.
  assert (Str.truthy (getenv env_without_key "GOOGLE_API_KEY") = false) as Hkey
    by (vm_compute; reflexivity).
  split; [exact Hkey|].
  destruct (offline_mode Urllib.netloc writable sample_service env_without_key sample_fs
              "Store Map.xlsx" "results.csv" (fresh (0 : service_state sample_service))
              _ _ Hkey (surjective_pairing _))
    as (Hcalls & _ & _ & _ & Hrows).
  split; [exact Hcalls | exact Hrows].
Defined.

(** The same holds of extended_analysis.py, whose messages then all use
    the no-website template. *)
Lemma offline_mode_extended {V : Type} `{PyValue V} `{Str.Lower}
    (urlparse_netloc : string -> option string) (open_w : string -> result unit)
    (svc : Service)
    env (fs : FileSystem V) input_file output_file messages_file
    (s : run_state svc) outcome s' :
  Str.truthy (getenv env "GOOGLE_API_KEY") = false ->
  ExtendedAnalysis.analyse_shops urlparse_netloc open_w svc env fs input_file
    output_file messages_file s = (outcome, s') ->
  calls s' = calls s /\ remote s' = remote s /\ sleeps s' = sleeps s /\
  (forall out i r, outcome = Ok out -> records (fst out) !! i = Some r ->
     Website r = None /\ HasWebsite r = false /\ DirectOrdering r = false /\
     Note r = "API key not provided") /\
  (forall out file i m, outcome = Ok out -> snd out = Some file ->
     records file !! i = Some m ->
     EmailSubject m = subject (no_website_message (format_got (msg_AccountName m)))).
Proof.
  intros Hkey. rewrite analyse_shops_ext_unfold. cbv zeta.
  rewrite (warn_if_no_key_offline _ _ _ Hkey). cbn [snd].
  destruct (read_shops_from_excel fs input_file) as [e|shops] eqn:Hload.
  { intros [= <- <-]. cbn. do 3 (split; [reflexivity|]). by split. }
  rewrite (write_rows_offline _ _ _ _ _ Hkey).
  assert (forall i r, map offline_row (Pandas.iterrows shops) !! i = Some r ->
            Website r = None /\ HasWebsite r = false /\ DirectOrdering r = false /\
            Note r = "API key not provided") as Hrows.
  { intros i r Hr. apply list_lookup_fmap_Some in Hr as (row & -> & _).
    by repeat split. }
  destruct (open_w output_file) as [e|[]].
  { intros [= <- <-]. cbn. do 3 (split; [reflexivity|]). by split. }
  destruct (Str.truthy messages_file).
  - destruct (open_w (default "" messages_file)) as [e|[]].
    { intros [= <- <-]. cbn. do 3 (split; [reflexivity|]). by split. }
    intros [= <- <-]. cbn. do 3 (split; [reflexivity|]). split.
    + intros out i r [= <-]. apply Hrows.
    + intros out file i m [= <-] [= <-] Hm. cbn [records] in Hm.
      apply list_lookup_fmap_Some in Hm as (r & -> & Hr).
      apply list_lookup_fmap_Some in Hr as (row & -> & _). reflexivity.
  - intros [= <- <-]. cbn. do 3 (split; [reflexivity|]). split.
    + intros out i r [= <-]. apply Hrows.
    + intros out file i m [= <-] [=].
Qed.

(* ===================================================================== *)
(** * The third-party note *)
(* ===================================================================== *)

Lemma NOTE_THIRD_PARTY_spelling :
  NOTE_THIRD_PARTY =
  "Website appears to be third" ++ NON_BREAKING_HYPHEN ++ "party ordering".
Proof. reflexivity. Qed.


(** The other reading of "host" fails as well: with a port written, the
    host is still [www.doordash.com], but the [netloc] tested ends with
    the port and the entity is classified as direct. *)
Example doordash_with_port :
  Urllib.netloc "https://www.doordash.com:443/store/123" = Some "www.doordash.com:443" /\
  Urllib.hostname "www.doordash.com:443" = Some "www.doordash.com" /\
  classify_website Urllib.netloc (Some "https://www.doordash.com:443/store/123")
    = (true, true).
Proof. repeat split; reflexivity. Qed.



(* ===================================================================== *)
(** * Properties of [drop_duplicates] *)
(* ===================================================================== *)

Section KeepFirst.

Context {V : Type} `{PyValue V}.
Variable idx : list nat.

Local Abbreviation key := (@Pandas.row_key V idx).
Local Abbreviation keep := (@Pandas.keep_first V _ idx).

Lemma keep_first_sublist seen rs : sublist (keep seen rs) rs.
Proof.
  revert seen. induction rs as [|r rs IH]; intros seen; cbn [Pandas.keep_first].
  - constructor.
  - case_bool_decide; [apply sublist_cons | apply sublist_skip]; apply IH.
Qed.

Lemma keep_first_not_seen seen rs e :
  e ∈ keep seen rs -> key e ∉ seen.
Proof.
  revert seen. induction rs as [|r rs IH]; intros seen; cbn [Pandas.keep_first].
  - by intros ?%elem_of_nil.
  - case_bool_decide as Hseen.
    + apply IH.
    + intros [->|He]%elem_of_cons; [exact Hseen|].
      apply IH in He. by intros ?; apply He; right.
Qed.

Lemma keep_first_NoDup seen rs : NoDup (map key (keep seen rs)).
Proof.
  revert seen. induction rs as [|r rs IH]; intros seen; cbn [Pandas.keep_first].
  - constructor.
  - case_bool_decide as Hseen; [apply IH|].
    cbn [map]. constructor; [|apply IH].
    intros (e & Hkey & He)%list_elem_of_fmap.
    apply keep_first_not_seen in He. apply He. rewrite <- Hkey. by left.
Qed.

Lemma keep_first_complete seen rs r :
  r ∈ rs -> key r ∈ seen \/ key r ∈ map key (keep seen rs).
Proof.
  revert seen. induction rs as [|r0 rs IH]; intros seen; cbn [Pandas.keep_first].
  - by intros ?%elem_of_nil.
  - intros [->|Hr]%elem_of_cons.
    + case_bool_decide as Hseen; [by left|]. right. cbn [map]. by left.
    + case_bool_decide as Hseen.
      * by apply IH.
      * destruct (IH (key r0 :: seen) Hr) as [[->|Hs]%elem_of_cons|Hk].
        -- right. cbn [map]. by left.
        -- by left.
        -- right. cbn [map]. by right.
Qed.

Lemma keep_first_first seen rs e :
  e ∈ keep seen rs ->
  exists before after : list (list (Pandas.cell V)),
    rs = (before ++ e :: after)%list /\ forall x, x ∈ before -> key x <> key e.
Proof.
  revert seen. induction rs as [|r rs IH]; intros seen; cbn [Pandas.keep_first].
  - by intros ?%elem_of_nil.
  - case_bool_decide as Hseen.
    + intros He. destruct (IH _ He) as (before & after & -> & Hfirst).
      exists (r :: before), after. split; [reflexivity|].
      intros x [->|Hx]%elem_of_cons; [|by apply Hfirst].
      intros Heq. apply keep_first_not_seen in He. apply He. by rewrite <- Heq.
    + intros [->|He]%elem_of_cons.
      * exists [], rs. split; [reflexivity|]. by intros x ?%elem_of_nil.
      * destruct (IH _ He) as (before & after & -> & Hfirst).
        exists (r :: before), after. split; [reflexivity|].
        intros x [->|Hx]%elem_of_cons; [|by apply Hfirst].
        intros Heq. apply keep_first_not_seen in He. apply He.
        rewrite <- Heq. by left.
Qed.

End KeepFirst.

(* ===================================================================== *)
(** * Properties of the record loader *)
(* ===================================================================== *)

Section LoaderProperties.

Context {V : Type} `{PyValue V}.

Lemma positions_from_lookup k label cols i :
  i ∈ Pandas.positions_from k label cols ->
  k <= i /\ cols !! (i - k) = Some label.
Proof.
  revert k. induction cols as [|c cols IH]; intros k; cbn [Pandas.positions_from].
  - by intros ?%elem_of_nil.
  - assert (i ∈ Pandas.positions_from (S k) label cols ->
            k <= i /\ (c :: cols) !! (i - k) = Some label) as Htail.
    { intros [Hle Hlk]%IH. split; [lia|].
      replace (i - k) with (S (i - S k)) by lia. exact Hlk. }
    case_bool_decide as Hc; [|exact Htail].
    intros [->|Hi]%elem_of_cons; [|by apply Htail].
    split; [lia|]. rewrite Nat.sub_diag. by rewrite Hc.
Qed.

Lemma positions_singleton label cols i :
  Pandas.positions label cols = [i] ->
  label ∈ cols /\ nth i cols "" = label.
Proof.
  intros Hpos.
  destruct (positions_from_lookup 0 label cols i) as [_ Hlk].
  { unfold Pandas.positions in Hpos. rewrite Hpos. by left. }
  rewrite Nat.sub_0_r in Hlk. split.
  - by eapply list_elem_of_lookup_2.
  - by apply nth_lookup_Some.
Qed.

Lemma positions_from_absent k label cols :
  label ∉ cols -> Pandas.positions_from k label cols = [].
Proof.
  revert k. induction cols as [|c cols IH]; intros k Hnot; [reflexivity|].
  cbn [Pandas.positions_from]. apply not_elem_of_cons in Hnot as [Hne Hnot].
  case_bool_decide; [congruence | by apply IH].
Qed.

Lemma positions_from_present k label cols :
  label ∈ cols -> Pandas.positions_from k label cols <> [].
Proof.
  revert k. induction cols as [|c cols IH]; intros k; cbn [Pandas.positions_from].
  - by intros ?%elem_of_nil.
  - intros [->|Hin]%elem_of_cons.
    + by rewrite bool_decide_eq_true_2.
    + case_bool_decide; [done | by apply IH].
Qed.

(** Selecting labels that each occur once keeps one column per label. *)
Lemma getitem_singletons cols rows keys idx :
  Forall2 (fun k i => Pandas.positions k cols = [i]) keys idx ->
  Pandas.getitem (map Some keys) {| Pandas.columns := cols; Pandas.rows := rows |} =
  Ok {| Pandas.columns := keys;
        Pandas.rows := map (fun row : list (Pandas.cell V) => map (Pandas.cell_at row) idx) rows |}.
Proof.
  intros Hpos. unfold Pandas.getitem. cbn [Pandas.columns Pandas.rows].
  assert (forallb (Pandas.key_present cols) (map Some keys) = true) as ->.
  { induction Hpos as [|k i keys idx Hk _ IH]; [reflexivity|].
    cbn [map forallb Pandas.key_present]. rewrite IH, andb_true_r.
    apply bool_decide_eq_true_2. by apply (positions_singleton k cols i). }
  assert (flat_map (Pandas.key_positions cols) (map Some keys) = idx) as ->.
  { induction Hpos as [|k i keys idx Hk _ IH]; [reflexivity|].
    cbn [map flat_map Pandas.key_positions]. by rewrite Hk, IH. }
  assert (map (fun i => nth i cols "") idx = keys) as ->; [|reflexivity].
  induction Hpos as [|k i keys idx Hk _ IH]; [reflexivity|].
  cbn [map]. rewrite IH. f_equal. by apply positions_singleton.
Qed.

Lemma has_entity_columns_positions (df : Pandas.DataFrame V) :
  has_entity_columns df = true ->
  exists idx,
    Forall2 (fun k i => Pandas.positions k (renamed_columns df) = [i])
            CANONICAL_COLUMNS idx.
Proof.
  unfold has_entity_columns, CANONICAL_COLUMNS. cbn [forallb].
  rewrite !andb_true_iff, !Nat.eqb_eq. intros (H1 & H2 & H3 & H4 & _).
  destruct (Pandas.positions "ShopID" _) as [|i1 [|]] eqn:E1; try discriminate.
  destruct (Pandas.positions "AccountName" _) as [|i2 [|]] eqn:E2; try discriminate.
  destruct (Pandas.positions "BillingCity" _) as [|i3 [|]] eqn:E3; try discriminate.
  destruct (Pandas.positions "BillingZip" _) as [|i4 [|]] eqn:E4; try discriminate.
  exists [i1; i2; i3; i4]. by repeat constructor.
Qed.

Lemma entity_of_positions cols idx (row : list (Pandas.cell V)) :
  Forall2 (fun k i => Pandas.positions k cols = [i]) CANONICAL_COLUMNS idx ->
  map (Pandas.cell_at row) idx = entity_of cols row.
Proof.
  unfold entity_of. generalize CANONICAL_COLUMNS.
  intros keys Hpos. induction Hpos as [|k i keys idx Hk _ IH]; [reflexivity|].
  cbn [map]. f_equal; [|exact IH]. unfold column_cell. by rewrite Hk.
Qed.

(** A sheet with the four entity columns loads to its entities. *)
Lemma load_sheet_ok (df : Pandas.DataFrame V) :
  has_entity_columns df = true ->
  load_sheet df =
  Ok {| Pandas.columns := CANONICAL_COLUMNS; Pandas.rows := sheet_entities df |}.
Proof.
  intros Hcols. destruct (has_entity_columns_positions df Hcols) as [idx Hpos].
  unfold load_sheet.
  assert (forall label, label ∈ CANONICAL_COLUMNS ->
            if_column (Pandas.rename COLUMN_RENAMES df) label = Some label) as Hif.
  { intros label Hlabel. unfold if_column. rewrite bool_decide_eq_true_2; [done|].
    change (Pandas.columns (Pandas.rename COLUMN_RENAMES df)) with (renamed_columns df).
    clear Hcols. revert Hlabel. generalize dependent idx.
    generalize CANONICAL_COLUMNS. intros keys idx Hpos.
    induction Hpos as [|k i keys idx Hk _ IH]; [by intros ?%elem_of_nil|].
    intros [->|Hin]%elem_of_cons; [|by apply IH].
    by apply (positions_singleton k _ i). }
  rewrite !Hif by (unfold CANONICAL_COLUMNS; apply list_elem_of_In; simpl; tauto).
  change [Some "ShopID"; Some "AccountName"; Some "BillingCity"; Some "BillingZip"]
    with (map Some CANONICAL_COLUMNS).
  change (Pandas.rename COLUMN_RENAMES df)
    with {| Pandas.columns := renamed_columns df; Pandas.rows := Pandas.rows df |}.
  rewrite (getitem_singletons _ _ _ idx Hpos).
  assert (map (fun row : list (Pandas.cell V) => map (Pandas.cell_at row) idx)
              (Pandas.rows df)
          = map (entity_of (renamed_columns df)) (Pandas.rows df)) as ->.
  { apply map_ext. intros row. by apply entity_of_positions. }
  reflexivity.
Qed.

End LoaderProperties.

Section LoaderResult.

Context {V : Type} `{PyValue V}.

Local Abbreviation frame_of df :=
  ({| Pandas.columns := CANONICAL_COLUMNS; Pandas.rows := sheet_entities df |}
     : Pandas.DataFrame V).

Local Abbreviation frames_of xls :=
  (fun sheet : string =>
     match (xls : Workbook V) !! sheet with
     | Some df => [frame_of df]
     | None => []
     end).

Lemma load_sheets_ok (xls : Workbook V) names acc :
  forallb (fun sheet => match xls !! sheet with
                        | Some df => has_entity_columns df
                        | None => true
                        end) names = true ->
  load_sheets xls names acc = Ok (acc ++ flat_map (frames_of xls) names)%list.
Proof.
  revert acc. induction names as [|sheet names IH]; intros acc; cbn [forallb].
  - intros _. cbn [load_sheets flat_map]. by rewrite app_nil_r.
  - rewrite andb_true_iff. intros [Hsheet Hrest].
    cbn [load_sheets flat_map].
    destruct (xls !! sheet) as [df|].
    + rewrite (load_sheet_ok df Hsheet). unfold Ok at 1. cbn [result_bind].
      rewrite (IH _ Hrest). by rewrite <- app_assoc.
    + by rewrite (IH _ Hrest).
Qed.

Lemma frames_of_columns (xls : Workbook V) names :
  Forall (fun df => Pandas.columns df = CANONICAL_COLUMNS)
         (flat_map (frames_of xls) names).
Proof.
  induction names as [|sheet names IH]; cbn [flat_map]; [constructor|].
  destruct (xls !! sheet); [constructor; [reflexivity | exact IH] | exact IH].
Qed.

Lemma frames_of_rows (xls : Workbook V) names :
  flat_map Pandas.rows (flat_map (frames_of xls) names) =
  flat_map (fun sheet => match xls !! sheet with
                         | Some df => sheet_entities df
                         | None => []
                         end) names.
Proof.
  induction names as [|sheet names IH]; [reflexivity|].
  cbn [flat_map]. destruct (xls !! sheet); [|exact IH].
  cbn [app flat_map Pandas.rows]. by rewrite IH.
Qed.

Lemma frames_of_nonempty (xls : Workbook V) names :
  existsb (fun sheet => bool_decide (is_Some (xls !! sheet))) names = true ->
  flat_map (frames_of xls) names <> [].
Proof.
  induction names as [|sheet names IH]; cbn [existsb flat_map]; [discriminate|].
  destruct (xls !! sheet) as [df|]; [discriminate|].
  rewrite bool_decide_eq_false_2 by (by intros [? ?]). exact IH.
Qed.

Lemma frames_of_empty (xls : Workbook V) names :
  existsb (fun sheet => bool_decide (is_Some (xls !! sheet))) names = false ->
  forall acc, load_sheets xls names acc = Ok acc.
Proof.
  induction names as [|sheet names IH]; cbn [existsb load_sheets]; [done|].
  rewrite orb_false_iff. intros [Hsheet Hrest] acc.
  destruct (xls !! sheet) as [df|]; [|by apply IH].
  by rewrite bool_decide_eq_true_2 in Hsheet.
Qed.

(** Frames with the same columns are stacked. *)
Lemma concat_stack (dfs : list (Pandas.DataFrame V)) cols :
  dfs <> [] ->
  Forall (fun df => Pandas.columns df = cols) dfs ->
  Pandas.concat dfs =
  Ok {| Pandas.columns := cols; Pandas.rows := flat_map Pandas.rows dfs |}.
Proof.
  destruct dfs as [|df0 dfs]; [done|]. intros _ Hcols.
  apply Forall_cons in Hcols as [Hcol0 Hcols]. unfold Pandas.concat.
  rewrite Hcol0.
  assert (forallb (fun df => bool_decide (Pandas.columns df = cols)) dfs = true) as ->;
    [|reflexivity].
  induction Hcols as [|df dfs Hdf _ IH]; [reflexivity|].
  cbn [forallb]. by rewrite IH, bool_decide_eq_true_2.
Qed.

(** What the loader returns on a loadable workbook: the entities of the
    workbook, each display name kept on its first row only. *)
Lemma read_shops_from_excel_ok (fs : FileSystem V) xlsx_path xls :
  fs !! xlsx_path = Some (Excel xls) ->
  loadable xls = true ->
  read_shops_from_excel fs xlsx_path =
  Ok {| Pandas.columns := CANONICAL_COLUMNS;
        Pandas.rows := Pandas.keep_first [1] [] (workbook_entities xls) |}.
Proof.
  intros Hfile. unfold loadable. rewrite andb_true_iff. intros [Hsome Hcols].
  unfold read_shops_from_excel, ExcelFile. rewrite Hfile.
  unfold Ok at 1. cbn [result_bind].
  rewrite (load_sheets_ok xls sheet_names [] Hcols). rewrite app_nil_l.
  unfold Ok at 1. cbn [result_bind].
  rewrite (concat_stack _ CANONICAL_COLUMNS
             (frames_of_nonempty _ _ Hsome) (frames_of_columns _ _)).
  unfold Ok at 1. cbn [result_bind].
  rewrite frames_of_rows. reflexivity.
Qed.

Lemma row_key_display_name (e : list (Pandas.cell V)) :
  Pandas.row_key [1] e = [display_name e].
Proof. reflexivity. Qed.

End LoaderResult.

(** ** Where the loader raises *)

Section LoaderFailures.

Context {V : Type} `{PyValue V}.

(** A sheet lacking one of the four columns, under both of its names,
    makes the selection raise [KeyError]: the list of keys then holds
    [None]. *)
Lemma load_sheet_missing_column (df : Pandas.DataFrame V) label :
  label ∈ CANONICAL_COLUMNS ->
  label ∉ renamed_columns df ->
  load_sheet df = Raise KeyError.
Proof.
  intros Hlabel Hmissing. unfold load_sheet, Pandas.getitem.
  assert (if_column (Pandas.rename COLUMN_RENAMES df) label = None) as Hnone.
  { unfold if_column. by rewrite bool_decide_eq_false_2. }
  assert (forallb (Pandas.key_present (Pandas.columns (Pandas.rename COLUMN_RENAMES df)))
            [ if_column (Pandas.rename COLUMN_RENAMES df) "ShopID";
              if_column (Pandas.rename COLUMN_RENAMES df) "AccountName";
              if_column (Pandas.rename COLUMN_RENAMES df) "BillingCity";
              if_column (Pandas.rename COLUMN_RENAMES df) "BillingZip" ] = false) as ->;
    [|reflexivity].
  unfold CANONICAL_COLUMNS in Hlabel.
  repeat (apply elem_of_cons in Hlabel as [->|Hlabel];
          [rewrite Hnone; cbn [forallb Pandas.key_present];
           by rewrite ?andb_false_r, ?andb_false_l|]).
  by apply elem_of_nil in Hlabel.
Qed.

Lemma load_sheet_raises_only_KeyError (df : Pandas.DataFrame V) e :
  load_sheet df = Raise e -> e = KeyError.
Proof.
  unfold load_sheet, Pandas.getitem.
  destruct (forallb _ _); [discriminate|]. by intros [= <-].
Qed.

Lemma load_sheets_missing_column (xls : Workbook V) names acc sheet df label :
  sheet ∈ names -> xls !! sheet = Some df ->
  label ∈ CANONICAL_COLUMNS -> label ∉ renamed_columns df ->
  load_sheets xls names acc = Raise KeyError.
Proof.
  intros Hsheet Hdf Hlabel Hmissing. revert acc Hsheet.
  induction names as [|name names IH]; intros acc; [by intros ?%elem_of_nil|].
  cbn [load_sheets]. intros [<-|Hin]%elem_of_cons.
  - by rewrite Hdf, (load_sheet_missing_column df label).
  - destruct (xls !! name) as [df'|]; [|by apply IH].
    destruct (load_sheet df') as [e|subset] eqn:Hload.
    + by rewrite (load_sheet_raises_only_KeyError df' e Hload).
    + cbn [result_bind]. by apply IH.
Qed.

(** Whenever a sheet that is there lacks one of the four columns, the
    loader raises [KeyError], whatever the other sheets hold. *)
Lemma read_shops_missing_column (fs : FileSystem V) xlsx_path xls sheet df label :
  fs !! xlsx_path = Some (Excel xls) ->
  sheet ∈ sheet_names -> xls !! sheet = Some df ->
  label ∈ CANONICAL_COLUMNS -> label ∉ renamed_columns df ->
  read_shops_from_excel fs xlsx_path = Raise KeyError.
Proof.
  intros Hfile Hsheet Hdf Hlabel Hmissing.
  unfold read_shops_from_excel, ExcelFile. rewrite Hfile.
  unfold Ok at 1. cbn [result_bind].
  by rewrite (load_sheets_missing_column xls sheet_names [] sheet df label).
Qed.

Lemma read_shops_nothing_to_concat (fs : FileSystem V) xlsx_path xls :
  fs !! xlsx_path = Some (Excel xls) ->
  existsb (fun sheet => bool_decide (is_Some (xls !! sheet))) sheet_names = false ->
  read_shops_from_excel fs xlsx_path = Raise ValueError.
Proof.
  intros Hfile Hnone.
  unfold read_shops_from_excel, ExcelFile. rewrite Hfile.
  unfold Ok at 1. cbn [result_bind].
  by rewrite (frames_of_empty _ _ Hnone).
Qed.

(** A workbook with none of the three sheets leaves nothing to
    concatenate, and the loader raises [ValueError]. *)
Lemma read_shops_no_sheet (fs : FileSystem V) xlsx_path xls :
  fs !! xlsx_path = Some (Excel xls) ->
  (forall sheet, sheet ∈ sheet_names -> xls !! sheet = None) ->
  read_shops_from_excel fs xlsx_path = Raise ValueError.
Proof.
  intros Hfile Hnone. apply (read_shops_nothing_to_concat _ _ xls Hfile).
  apply not_true_iff_false. intros (sheet & Hin & Hsome)%existsb_exists.
  apply list_elem_of_In in Hin. rewrite (Hnone sheet Hin) in Hsome.
  apply bool_decide_eq_true in Hsome. by destruct Hsome.
Qed.

Lemma forallb_false_exists {A : Type} (f : A -> bool) (l : list A) :
  forallb f l = false -> exists x, x ∈ l /\ f x = false.
Proof.
  induction l as [|a l IH]; cbn [forallb]; [discriminate|].
  destruct (f a) eqn:Ha.
  - intros (x & Hx & Hfx)%IH. exists x. split; [by right | exact Hfx].
  - intros _. exists a. split; [by left | exact Ha].
Qed.

(** With unambiguous headers, the loader returns only on the workbooks
    described by [loadable]. *)
Lemma read_shops_Ok_loadable (fs : FileSystem V) xlsx_path xls shops :
  fs !! xlsx_path = Some (Excel xls) ->
  unambiguous xls = true ->
  read_shops_from_excel fs xlsx_path = Ok shops ->
  loadable xls = true.
Proof.
  intros Hfile Hunamb Hread.
  destruct (loadable xls) eqn:Hload; [reflexivity|]. exfalso.
  unfold loadable in Hload. apply andb_false_iff in Hload as [Hnone|Hcols].
  - by rewrite (read_shops_nothing_to_concat _ _ xls Hfile Hnone) in Hread.
  - apply forallb_false_exists in Hcols as (sheet & Hsheet & Hbad).
    destruct (xls !! sheet) as [df|] eqn:Hdf; [|discriminate].
    apply forallb_false_exists in Hbad as (label & Hlabel & Hlen).
    apply Nat.eqb_neq in Hlen.
    unfold unambiguous in Hunamb. rewrite forallb_forall in Hunamb.
    specialize (Hunamb sheet (proj1 (list_elem_of_In _ _) Hsheet)).
    rewrite Hdf, forallb_forall in Hunamb.
    specialize (Hunamb label (proj1 (list_elem_of_In _ _) Hlabel)).
    apply Nat.leb_le in Hunamb.
    assert (label ∉ renamed_columns df) as Hmissing.
    { intros Hin. apply (positions_from_present 0) in Hin.
      unfold Pandas.positions in Hlen, Hunamb.
      destruct (Pandas.positions_from 0 label (renamed_columns df)) as [|i [|]];
        [done | by apply Hlen | cbn in Hunamb; lia]. }
    by rewrite (read_shops_missing_column _ _ xls sheet df label) in Hread.
Qed.

End LoaderFailures.

(** C5, as stated, fails.  A sheet that carries the account name under
    both labels, [Account Name] and [AccountName], has two AccountName
    columns once renamed; the selection keeps both and the duplicates
    are decided on the pair.  Two rows named [Tony's Pizza] in the first
    of them are both returned, and so are two rows named [Pizzeria A]
    in the second: whichever column is read as the display name, the
    output holds a name twice. *)
Lemma twice_named_sheet_keeps_a_name_twice :
  exists shops r0 r1 r2,
    read_shops_from_excel ambiguous_fs "names.xlsx" = Ok shops /\
    Pandas.columns shops =
      ["ShopID"; "AccountName"; "AccountName"; "BillingCity"; "BillingZip"] /\
    Pandas.rows shops = [r0; r1; r2] /\
    Pandas.cell_at r0 1 = Some "Tony's Pizza" /\
    Pandas.cell_at r1 1 = Some "Tony's Pizza" /\
    Pandas.cell_at r0 2 = Some "Pizzeria A" /\
    Pandas.cell_at r2 2 = Some "Pizzeria A".
Proof.
  eexists. eexists. eexists. eexists.
  split; [vm_compute; reflexivity|]. repeat split.
Qed.

(** C5, amended. On every workbook in which no sheet carries one of
    the four entity columns more than once after the renaming (under
    both its source label and its canonical label), the loader returns
    exactly when one of the sheets
    All, Multi Location Shops, OO Partners is there and each one that is
    there has the four columns; and every output has exactly one entity
    per display name occurring in those sheets read in that order, that
    entity being the first row carrying the name in this order, with the
    entities listed in the order in which they are first seen. *)
Theorem read_shops_first_occurrence {V : Type} `{PyValue V}
    (fs : FileSystem V) (xlsx_path : string) (xls : Workbook V) :
  fs !! xlsx_path = Some (Excel xls) ->
  unambiguous xls = true ->
  (loadable xls = true -> exists shops, read_shops_from_excel fs xlsx_path = Ok shops) /\
  (forall shops,
     read_shops_from_excel fs xlsx_path = Ok shops ->
     loadable xls = true /\
     Pandas.columns shops = CANONICAL_COLUMNS /\
     NoDup (map display_name (Pandas.rows shops)) /\
     (forall e, e ∈ workbook_entities xls ->
        display_name e ∈ map display_name (Pandas.rows shops)) /\
     (forall e, e ∈ Pandas.rows shops ->
        exists before after : list (list (Pandas.cell V)),
          workbook_entities xls = (before ++ e :: after)%list /\
          forall x, x ∈ before -> display_name x <> display_name e) /\
     sublist (Pandas.rows shops) (workbook_entities xls)).
Proof.
  intros Hfile Hunamb. split.
  { intros Hload. eexists. by apply read_shops_from_excel_ok. }
  intros shops Hread.
  pose proof (read_shops_Ok_loadable _ _ _ _ Hfile Hunamb Hread) as Hload.
  split; [exact Hload|].
  rewrite (read_shops_from_excel_ok _ _ _ Hfile Hload) in Hread.
  injection Hread as <-.
  cbn [Pandas.columns Pandas.rows]. split; [reflexivity|]. split; [|split; [|split]].
  - pose proof (keep_first_NoDup [1] [] (workbook_entities xls)) as Hnd.
    rewrite (map_ext _ (fun e => (fun c : Pandas.cell V => [c]) (display_name e)))
      in Hnd by reflexivity.
    rewrite <- (map_map display_name (fun c : Pandas.cell V => [c])) in Hnd.
    by apply (NoDup_fmap_1 (fun c : Pandas.cell V => [c])) in Hnd.
  - intros e He.
    destruct (keep_first_complete [1] [] _ e He) as [Hseen|Hkept].
    + by apply elem_of_nil in Hseen.
    + apply list_elem_of_fmap in Hkept as (y & Hkey & Hy).
      rewrite !row_key_display_name in Hkey. injection Hkey as ->.
      apply list_elem_of_fmap. by exists y.
  - intros e He.
    destruct (keep_first_first [1] [] _ e He) as (before & after & Hsplit & Hfirst).
    exists before, after. split; [exact Hsplit|].
    intros x Hx Heq. apply (Hfirst x Hx). by rewrite !row_key_display_name, Heq.
  - apply keep_first_sublist.
Qed.

Lemma read_shops_first_occurrence_witness :
  exists shops,
    read_shops_from_excel sample_fs "Store Map.xlsx" = Ok shops /\
    Pandas.columns shops = CANONICAL_COLUMNS /\
    NoDup (map display_name (Pandas.rows shops)) /\
    sublist (Pandas.rows shops)
            (workbook_entities ({[ "All" := sheet_all; "OO Partners" := sheet_partners ]}
                                  : Workbook string)).
Proof.
  destruct (read_shops_first_occurrence sample_fs "Store Map.xlsx"
              ({[ "All" := sheet_all; "OO Partners" := sheet_partners ]} : Workbook string))
    as [Hreturns Hout].
  - vm_compute. reflexivity.
  - vm_compute. reflexivity.
  - destruct Hreturns as [shops Hread]; [vm_compute; reflexivity|].
    destruct (Hout shops Hread) as (_ & Hcols & Hnd & _ & _ & Hsub).
    exists shops. repeat split; assumption.
Defined.

Example workbook_entities_sample :
  workbook_entities ({[ "All" := sheet_all; "OO Partners" := sheet_partners ]}
                       : Workbook string) =
  [ [Some "1"; Some "Tony's Pizza"; Some "Boston"; Some "02108"];
    [Some "2"; Some "Luigi's"; Some "Salem"; Some "01970"];
    [Some "3"; Some "Tony's Pizza"; Some "Lynn"; None];
    [Some "9"; Some "Luigi's"; Some "Salem"; Some "01970"];
    [Some "4"; Some "Mario's"; Some "Cambridge"; Some "02139"] ].
Proof. vm_compute. reflexivity. Qed.

(** C6. A sheet that is there but lacks known source columns does not
    load: on a workbook whose sheet All has the single column Account
    Name, the loader raises [KeyError] instead of returning the entity. *)
Theorem read_shops_missing_columns_raises :
  read_shops_from_excel sample_fs "names.xlsx" = Raise KeyError.
Proof. vm_compute. reflexivity. Qed.

(** C7. A workbook holding none of the sheets All, Multi Location Shops,
    OO Partners does not load to an empty set: the loader raises
    [ValueError]. *)
Theorem read_shops_no_sheet_raises :
  read_shops_from_excel sample_fs "other.xlsx" = Raise ValueError.
Proof. vm_compute. reflexivity. Qed.

(* ===================================================================== *)
(** * Further properties of the classifier and the composer *)
(* ===================================================================== *)

(** X1. The has-website flag is the truthiness of the website and nothing
    else: it is true for every non-empty string, also one whose host is
    an aggregator or which [urlparse] rejects, and false for [None] and
    the empty string. *)
Theorem has_website_is_truthiness `{Str.Lower}
    (urlparse_netloc : string -> option string) (website : option string) :
  fst (classify_website urlparse_netloc website) = Str.truthy website.
Proof.
  unfold classify_website. destruct (Str.truthy website); cbn [negb]; [|reflexivity].
  destruct (urlparse_netloc _) as [host|]; [|reflexivity].
  by destruct (is_third_party _).
Qed.

(** X2. Direct ordering is reported for a non-empty website exactly when
    [urlparse] accepts it and its lower-cased [netloc], taken whole, ends
    with none of the aggregator domains: the strip of leading [w] and
    dots never changes the verdict, and a website that [urlparse]
    rejects is never direct.  This holds whatever [lower] does beyond
    ASCII. *)
Theorem direct_iff_no_aggregator_suffix `{Str.Lower}
    (urlparse_netloc : string -> option string) (w : string) :
  w <> "" ->
  (snd (classify_website urlparse_netloc (Some w)) = true <->
   exists netloc, urlparse_netloc w = Some netloc /\
                  ~ ends_with_aggregator (Str.lower netloc)).
Proof.
  intros Hw. rewrite (classify_website_nonempty _ _ Hw).
  destruct (urlparse_netloc w) as [netloc|].
  - unfold normalise_domain. rewrite is_third_party_lstrip.
    destruct (is_third_party (Str.lower netloc)) eqn:E; cbn [snd].
    + apply is_third_party_spec in E. split; [discriminate|].
      intros (netloc' & [= <-] & Hnot). by destruct Hnot.
    + split; [|reflexivity]. intros _. exists netloc. split; [reflexivity|].
      intros Hagg. apply is_third_party_spec in Hagg. congruence.
  - cbn [snd]. split; [discriminate|]. by intros (netloc & [=] & _).
Qed.

Lemma direct_iff_no_aggregator_suffix_witness :
  snd (classify_website Urllib.netloc (Some "https://www.tonys.example/menu")) = true /\
  ~ (exists netloc, Urllib.netloc "https://mydoordash.com" = Some netloc /\
                    ~ ends_with_aggregator (Str.lower netloc)).
Proof.
  split.
  - apply (proj2 (direct_iff_no_aggregator_suffix Urllib.netloc
                    "https://www.tonys.example/menu" ltac:(discriminate))).
    exists "www.tonys.example". split; [reflexivity|].
    intros Hagg. apply is_third_party_spec in Hagg. discriminate Hagg.
  - intros Hex.
    apply (proj2 (direct_iff_no_aggregator_suffix Urllib.netloc
                    "https://mydoordash.com" ltac:(discriminate))) in Hex.
    discriminate Hex.
Defined.

Lemma startswith_intro (s p : string) :
  (exists r, s = p ++ r) -> Str.startswith s p = true.
Proof. intros [r ->]. apply prefix_append. Qed.

(** X3. Whatever the two flags, the e-mail body opens with the salutation
    [Hi <name>,] followed by an empty line, and the SMS text opens with
    the name followed by a colon and a space. *)
Theorem generate_messages_openings (name : string) (has_website direct_ordering : bool) :
  Str.startswith (body (generate_messages name has_website direct_ordering))
                 ("Hi " ++ name ++ "," ++ LF ++ LF) = true /\
  Str.startswith (sms (generate_messages name has_website direct_ordering))
                 (name ++ ": ") = true.
Proof.
  destruct has_website, direct_ordering;
    (split; apply startswith_intro; eexists;
     unfold generate_messages, no_website_message, third_party_message, direct_message;
     cbn [negb andb body sms]; cbv zeta;
     rewrite !append_assoc; reflexivity).
Qed.

(* ===================================================================== *)
(** * Further properties of the batch loop *)
(* ===================================================================== *)

Section Rows.

Context {V : Type} `{PyValue V}.


Lemma iterrows_length (df : Pandas.DataFrame V) :
  length (Pandas.iterrows df) = length (Pandas.rows df).
Proof. apply length_imap. Qed.

Lemma map_iterrows {B : Type} (g : Pandas.Series V -> B)
    (h : list (Pandas.cell V) -> B) (df : Pandas.DataFrame V) :
  (forall i row, Pandas.rows df !! i = Some row ->
     g {| Pandas.name := i; Pandas.index := Pandas.columns df;
          Pandas.values := row |} = h row) ->
  map g (Pandas.iterrows df) = map h (Pandas.rows df).
Proof.
  intros Hgh. apply list_eq. intros i. unfold Pandas.iterrows.
  change (map g ?l) with (g <$> l). change (map h ?l) with (h <$> l).
  rewrite !list_lookup_fmap, list_lookup_imap.
  destruct (Pandas.rows df !! i) as [row|] eqn:Hrow; [|reflexivity].
  cbn. f_equal. by apply Hgh.
Qed.



(** A row with a city under two labels raises as soon as its query is
    built. *)
Lemma shop_query_Series (row : Pandas.Series V) i j idx :
  Pandas.positions "BillingCity" (Pandas.index row) = i :: j :: idx ->
  shop_query row = Raise ValueError.
Proof.
  intros Hpos. unfold shop_query, build_query, Pandas.get. by rewrite Hpos.
Qed.

(** The only exception the query can raise. *)
Lemma shop_query_raises (row : Pandas.Series V) e :
  shop_query row = Raise e -> e = ValueError.
Proof.
  unfold shop_query, build_query.
  destruct (Pandas.get row "BillingCity"); cbn [Pandas.notna_truth];
    unfold Ok, Raise; cbn [result_bind]; congruence.
Qed.

(** On a row indexed by the four canonical columns, each field is read
    as the cell in its position. *)
Lemma get_canonical (row : Pandas.Series V) :
  Pandas.index row = CANONICAL_COLUMNS ->
  map (Pandas.get row) CANONICAL_COLUMNS =
  map (fun i => Pandas.Scalar (Pandas.cell_at (Pandas.values row) i)) [0; 1; 2; 3].
Proof. unfold Pandas.get. intros ->. reflexivity. Qed.

Lemma cells_of_four (e : list (Pandas.cell V)) :
  length e = 4 -> map (Pandas.cell_at e) [0; 1; 2; 3] = e.
Proof.
  destruct e as [|a [|b [|c [|d [|]]]]]; try discriminate. reflexivity.
Qed.

End Rows.

Section Requests.

Context {V : Type} `{PyValue V} `{Str.Lower}.
Variable urlparse_netloc : string -> option string.
Variable svc : Service.

Local Abbreviation loop_body := (classify_shop urlparse_netloc svc).
Local Abbreviation write_loop := (ShopAnalysis.write_rows urlparse_netloc svc).

Lemma query_google_places_effect api_key query (s : run_state svc) :
  query_google_places api_key query s =
  (match fst (findplacefromtext svc (remote s) api_key query) with
   | FindCandidates (place_id :: _) => place_id
   | FindCandidates [] => None
   | FindError => None
   end,
   {| remote := snd (findplacefromtext svc (remote s) api_key query);
      calls := calls s ++ [FindPlaceCall api_key query];
      sleeps := sleeps s; stdout := stdout s |}).
Proof.
  unfold query_google_places, bind, request_find, ret.
  by destruct (findplacefromtext svc (remote s) api_key query).
Qed.

Lemma get_place_details_effect api_key place_id (s : run_state svc) :
  get_place_details api_key place_id s =
  (match fst (place_details svc (remote s) api_key place_id) with
   | DetailsResult website url => (website, url)
   | DetailsError => (None, None)
   end,
   {| remote := snd (place_details svc (remote s) api_key place_id);
      calls := calls s ++ [PlaceDetailsCall api_key place_id];
      sleeps := sleeps s; stdout := stdout s |}).
Proof.
  unfold get_place_details, bind, request_details, ret.
  by destruct (place_details svc (remote s) api_key place_id).
Qed.

Lemma no_place_falsy reply :
  no_place reply ->
  Str.truthy match reply with
             | FindCandidates (place_id :: _) => place_id
             | FindCandidates [] => None
             | FindError => None
             end = false.
Proof.
  intros [->|[->|[others [->| ->]]]]; reflexivity.
Qed.

(** What one pass through the loop body adds to the log when it writes
    a row. *)
Lemma classify_shop_requests api_key (row : Pandas.Series V) s r s' :
  Str.truthy api_key = true ->
  loop_body api_key row s = (Ok r, s') ->
  exists requests,
    calls s' = (calls s ++ requests)%list /\
    shop_requests (default "" api_key) row requests /\
    sleeps s' = sleeps s /\ stdout s' = stdout s.
Proof.
  intros Hkey.
  destruct (classify_shop_cases urlparse_netloc svc api_key row s)
    as [[Hoff _]|[(_ & e & _ & ->)|[(_ & query & place_id & s1 & Hquery & Hfind & _ & ->)
       |(_ & query & place_id & s1 & website & url & s2 & Hquery & Hfind & _ & Hdet & ->)]]].
  - congruence.
  - discriminate.
  - intros [= <- <-]. rewrite query_google_places_effect in Hfind.
    injection Hfind as _ <-. cbn [calls sleeps stdout].
    exists [FindPlaceCall (default "" api_key) query].
    split; [reflexivity|]. split; [|done]. exists query. split; [exact Hquery | by left].
  - cbv zeta. intros [= <- <-]. rewrite query_google_places_effect in Hfind.
    injection Hfind as _ <-. rewrite get_place_details_effect in Hdet.
    injection Hdet as _ <-. cbn [calls sleeps stdout].
    exists [FindPlaceCall (default "" api_key) query;
            PlaceDetailsCall (default "" api_key) (default "" place_id)].
    split; [by rewrite <- app_assoc|]. split; [|done].
    exists query. split; [exact Hquery|]. right. by eexists.
Qed.

(** A loop body that raises has changed nothing: the exception comes
    from the query, with a key, before the first request. *)
Lemma classify_shop_raises api_key (row : Pandas.Series V) s e s' :
  loop_body api_key row s = (Raise e, s') ->
  s' = s /\ e = ValueError /\ Str.truthy api_key = true /\ shop_query row = Raise e.
Proof.
  destruct (classify_shop_cases urlparse_netloc svc api_key row s)
    as [[_ ->]|[(Hkey & e0 & Hquery & ->)|[(_ & query & place_id & s1 & _ & _ & _ & ->)
       |(_ & query & place_id & s1 & website & url & s2 & _ & _ & _ & _ & ->)]]];
    try discriminate.
  intros [= <- <-]. repeat split; try assumption. by apply (shop_query_raises row).
Qed.

(** The loop body prints nothing. *)
Lemma classify_shop_stdout api_key (row : Pandas.Series V) s :
  stdout (snd (loop_body api_key row s)) = stdout s.
Proof.
  destruct (loop_body api_key row s) as [[e|r] s'] eqn:Hrow.
  - by apply classify_shop_raises in Hrow as [-> _].
  - destruct (Str.truthy api_key) eqn:Hkey.
    + by destruct (classify_shop_requests _ _ _ _ _ Hkey Hrow) as (? & _ & _ & _ & ?).
    + rewrite (classify_shop_offline _ _ _ _ _ Hkey) in Hrow. by injection Hrow as _ <-.
Qed.




(** The loop prints nothing, however it ends. *)
Lemma write_rows_stdout api_key (rows : list (Pandas.Series V)) s :
  stdout (snd (write_loop api_key rows s)) = stdout s.
Proof.
  revert s. induction rows as [|row rows IH]; intros s; [reflexivity|].
  rewrite write_rows_cons.
  pose proof (classify_shop_stdout api_key row s) as Hrow.
  destruct (loop_body api_key row s) as [[e|r] s1]; [exact Hrow|].
  cbn [snd] in Hrow.
  specialize (IH (snd (throttle svc api_key s1))).
  assert (stdout (snd (throttle svc api_key s1)) = stdout s1) as Hthrottle.
  { unfold throttle. by destruct (Str.truthy api_key). }
  destruct (write_loop api_key rows _) as [[e|rs'] s3]; cbn [snd] in *; congruence.
Qed.

(** The entity fields of the row written are those read from the row,
    whatever the key and the service. *)
Lemma classify_shop_fields api_key (row : Pandas.Series V) s r s' :
  loop_body api_key row s = (Ok r, s') ->
  entity_fields r = map (Pandas.get row) CANONICAL_COLUMNS.
Proof.
  destruct (classify_shop_cases urlparse_netloc svc api_key row s)
    as [[_ ->]|[(_ & e & _ & ->)|[(_ & query & place_id & s1 & _ & _ & _ & ->)
       |(_ & query & place_id & s1 & website & url & s2 & _ & _ & _ & _ & ->)]]];
    try discriminate; cbv zeta; by intros [= <- <-].
Qed.

Lemma write_rows_fields api_key (rows : list (Pandas.Series V)) s rs s' :
  write_loop api_key rows s = (Ok rs, s') ->
  map entity_fields rs = map (fun row => map (Pandas.get row) CANONICAL_COLUMNS) rows.
Proof.
  revert s rs s'. induction rows as [|row rows IH]; intros s rs s'.
  - by intros [= <- <-].
  - rewrite write_rows_cons.
    destruct (loop_body api_key row s) as [[e|r] s1] eqn:Hrow; [discriminate|].
    destruct (write_loop api_key rows _) as [[e|rs'] s3] eqn:Hrest; [discriminate|].
    intros [= <- <-]. cbn [map].
    by rewrite (classify_shop_fields _ _ _ _ _ Hrow), (IH _ _ _ Hrest).
Qed.

(** Every row the loop body writes is consistent. *)
Lemma classify_shop_consistent api_key (row : Pandas.Series V) s r s' :
  loop_body api_key row s = (Ok r, s') -> row_consistent r.
Proof.
  assert (forall x : string,
            x ∈ [ ""; NOTE_NO_WEBSITE; NOTE_THIRD_PARTY; NOTE_PLACE_NOT_FOUND;
                  NOTE_NO_API_KEY ] <->
            x = "" \/ x = NOTE_NO_WEBSITE \/ x = NOTE_THIRD_PARTY \/
            x = NOTE_PLACE_NOT_FOUND \/ x = NOTE_NO_API_KEY) as Hmem.
  { intros x. rewrite !elem_of_cons, elem_of_nil. tauto. }
  unfold row_consistent.
  destruct (classify_shop_cases urlparse_netloc svc api_key row s)
    as [[_ ->]|[(_ & e & _ & ->)|[(_ & query & place_id & s1 & _ & _ & _ & ->)
       |(_ & query & place_id & s1 & website & url & s2 & _ & _ & _ & _ & ->)]]].
  - intros [= <- <-].
    cbn [offline_row output_row Website HasWebsite DirectOrdering Note Str.truthy].
    rewrite Hmem. repeat split; try discriminate; try tauto. by intros [? _].
  - discriminate.
  - intros [= <- <-].
    cbn [output_row Website HasWebsite DirectOrdering Note Str.truthy].
    rewrite Hmem. repeat split; try discriminate; try tauto. by intros [? _].
  - cbv zeta. intros [= <- <-].
    cbn [output_row Website HasWebsite DirectOrdering Note]. rewrite Hmem.
    unfold classify_website.
    destruct (Str.truthy website); cbn [negb fst snd];
      [destruct (urlparse_netloc _) as [host|];
       [destruct (is_third_party _)|]|];
      cbn [negb fst snd];
      (split; [reflexivity|]); (split; [split; [discriminate || reflexivity | discriminate || reflexivity]|]);
      (split; [split; [intros [? ?]; discriminate || reflexivity | intros ?; split; discriminate || reflexivity]|]);
      tauto.
Qed.

End Requests.

(** X4. When the search gives no place id (it failed, returned no
    candidate, or its first candidate has no id or an empty one), the
    turn of the loop for that entity makes no detail request: the search
    is the only call logged, the row written has no website, both flags
    false and the note [Place not found], and the turn ends with the one
    pause of 0.2 s.  In extended_analysis.py the message composed is the
    one for an entity without website. *)
Theorem place_not_found_row {V : Type} `{PyValue V} `{Str.Lower}
    (urlparse_netloc : string -> option string) (svc : Service)
    api_key (row : Pandas.Series V) (s : run_state svc) query reply r1 :
  Str.truthy api_key = true ->
  build_query (Pandas.get row "AccountName") (Pandas.get row "BillingCity") = Ok query ->
  findplacefromtext svc (remote s) (default "" api_key) query = (reply, r1) ->
  no_place reply ->
  let r := {| ShopID := Pandas.get row "ShopID";
              AccountName := Pandas.get row "AccountName";
              BillingCity := Pandas.get row "BillingCity";
              BillingZip := Pandas.get row "BillingZip";
              Website := None; HasWebsite := false; DirectOrdering := false;
              Note := "Place not found" |} in
  let s' := {| remote := r1;
               calls := calls s ++ [FindPlaceCall (default "" api_key) query];
               sleeps := S (sleeps s); stdout := stdout s |} in
  ShopAnalysis.write_rows urlparse_netloc svc api_key [row] s = (Ok [r], s') /\
  ExtendedAnalysis.collect_rows urlparse_netloc svc api_key [row] s =
    (Ok ([r], [ExtendedAnalysis.message_row r]), s') /\
  EmailSubject (ExtendedAnalysis.message_row r) =
    "Grow your pizzeria with a custom website and phone ordering".
Proof.
  intros Hkey Hquery Hreply Hnone r s'.
  assert (ShopAnalysis.write_rows urlparse_netloc svc api_key [row] s = (Ok [r], s'))
    as Hloop.
  { rewrite write_rows_cons.
    rewrite (classify_shop_not_found urlparse_netloc svc api_key row s query
               match reply with
               | FindCandidates (place_id :: _) => place_id
               | FindCandidates [] => None
               | FindError => None
               end
               {| remote := r1;
                  calls := calls s ++ [FindPlaceCall (default "" api_key) query];
                  sleeps := sleeps s; stdout := stdout s |} Hkey Hquery).
    - unfold Ok at 1. unfold throttle. rewrite Hkey. reflexivity.
    - rewrite query_google_places_effect, Hreply. reflexivity.
    - by apply no_place_falsy. }
  split; [exact Hloop|]. split; [|reflexivity].
  by rewrite collect_rows_write_rows, Hloop.
Qed.

Lemma place_not_found_row_witness :
  ShopAnalysis.write_rows Urllib.netloc sample_service (Some "secret") [mario_series]
    (fresh (0 : service_state sample_service)) =
  (Ok [ {| ShopID := Pandas.Scalar (Some "4");
           AccountName := Pandas.Scalar (Some "Mario's");
           BillingCity := Pandas.Scalar (Some "Cambridge");
           BillingZip := Pandas.Scalar (Some "02139");
           Website := None; HasWebsite := false; DirectOrdering := false;
           Note := "Place not found" |} ],
   {| remote := (1 : service_state sample_service);
      calls := [FindPlaceCall "secret" "Mario's, Cambridge, MA"];
      sleeps := 1; stdout := [] |}).
Proof.
  refine (proj1 (place_not_found_row Urllib.netloc sample_service (Some "secret")
                   mario_series (fresh (0 : service_state sample_service))
                   "Mario's, Cambridge, MA"
                   (FindCandidates []) (1 : service_state sample_service) _ _ _ _)).
  - reflexivity.
  - reflexivity.
  - reflexivity.
  - right. by left.
Defined.

(** X5. When a place is found but the detail request fails, or succeeds
    without a website or with an empty one, the row keeps the website as
    returned ([None] after a failure), has both flags false and the note
    [No website]: a failed detail request cannot be told from a place
    without a website.  Only the first candidate of the search is used;
    the two requests are the only calls of the turn, which ends with the
    pause. *)
Theorem no_website_row {V : Type} `{PyValue V} `{Str.Lower}
    (urlparse_netloc : string -> option string) (svc : Service)
    api_key (row : Pandas.Series V) (s : run_state svc)
    query c place_id others r1 reply r2 :
  Str.truthy api_key = true ->
  build_query (Pandas.get row "AccountName") (Pandas.get row "BillingCity") = Ok query ->
  findplacefromtext svc (remote s) (default "" api_key) query
    = (FindCandidates (Some (String c place_id) :: others), r1) ->
  place_details svc r1 (default "" api_key) (String c place_id) = (reply, r2) ->
  Str.truthy (reply_website reply) = false ->
  let r := {| ShopID := Pandas.get row "ShopID";
              AccountName := Pandas.get row "AccountName";
              BillingCity := Pandas.get row "BillingCity";
              BillingZip := Pandas.get row "BillingZip";
              Website := reply_website reply;
              HasWebsite := false; DirectOrdering := false;
              Note := "No website" |} in
  let requests := [FindPlaceCall (default "" api_key) query;
                   PlaceDetailsCall (default "" api_key) (String c place_id)] in
  classify_shop urlparse_netloc svc api_key row s =
    (Ok r, {| remote := r2; calls := calls s ++ requests;
              sleeps := sleeps s; stdout := stdout s |}) /\
  ShopAnalysis.write_rows urlparse_netloc svc api_key [row] s =
    (Ok [r], {| remote := r2; calls := calls s ++ requests;
                sleeps := S (sleeps s); stdout := stdout s |}).
Proof.
  intros Hkey Hquery Hfind Hdetails Hnone r requests.
  assert (classify_shop urlparse_netloc svc api_key row s =
            (Ok r, {| remote := r2; calls := calls s ++ requests;
                      sleeps := sleeps s; stdout := stdout s |})) as Hbody.
  { rewrite (classify_shop_found urlparse_netloc svc api_key row s query
               (Some (String c place_id))
               {| remote := r1;
                  calls := calls s ++ [FindPlaceCall (default "" api_key) query];
                  sleeps := sleeps s; stdout := stdout s |}
               (reply_website reply)
               match reply with DetailsResult _ url => url | DetailsError => None end
               {| remote := r2;
                  calls := (calls s ++ [FindPlaceCall (default "" api_key) query]) ++
                           [PlaceDetailsCall (default "" api_key) (String c place_id)];
                  sleeps := sleeps s; stdout := stdout s |}
               Hkey Hquery).
    - unfold classify_website. rewrite Hnone. cbn. by rewrite <- app_assoc.
    - rewrite query_google_places_effect, Hfind. reflexivity.
    - reflexivity.
    - change (default "" (Some (String c place_id))) with (String c place_id).
      rewrite get_place_details_effect. cbn [remote calls sleeps stdout].
      rewrite Hdetails. cbn [fst snd]. by destruct reply. }
  split; [exact Hbody|].
  rewrite write_rows_cons, Hbody. unfold Ok at 1. unfold throttle. rewrite Hkey.
  reflexivity.
Qed.

Lemma no_website_row_witness :
  classify_shop Urllib.netloc details_down_service (Some "secret") tony_series
    (fresh (0 : service_state details_down_service)) =
  (Ok {| ShopID := Pandas.Scalar (Some "1");
         AccountName := Pandas.Scalar (Some "Tony's Pizza");
         BillingCity := Pandas.Scalar (Some "Boston");
         BillingZip := Pandas.Scalar (Some "02108");
         Website := None; HasWebsite := false; DirectOrdering := false;
         Note := "No website" |},
   {| remote := (2 : service_state details_down_service);
      calls := [FindPlaceCall "secret" "Tony's Pizza, Boston, MA";
                PlaceDetailsCall "secret" "place-1"];
      sleeps := 0; stdout := [] |}).
Proof.
  refine (proj1 (no_website_row Urllib.netloc details_down_service (Some "secret")
                   tony_series (fresh (0 : service_state details_down_service))
                   "Tony's Pizza, Boston, MA"
                   "p" "lace-1" [None] (1 : service_state details_down_service)
                   DetailsError (2 : service_state details_down_service) _ _ _ _ _)).
  - reflexivity.
  - reflexivity.
  - reflexivity.
  - reflexivity.
  - reflexivity.
Defined.

(* ===================================================================== *)
(** * Further properties of the record loader *)
(* ===================================================================== *)

Section LoaderShape.

Context {V : Type} `{PyValue V}.

Lemma sheet_entities_shape (df : Pandas.DataFrame V) e :
  e ∈ sheet_entities df -> length e = 4 /\ forallb Pandas.isna e = false.
Proof.
  unfold sheet_entities. intros [Hsome Hin]%list_elem_of_filter.
  split; [|exact Hsome].
  apply list_elem_of_fmap in Hin as (row & -> & _). reflexivity.
Qed.

Lemma workbook_entities_shape (xls : Workbook V) e :
  e ∈ workbook_entities xls -> length e = 4 /\ forallb Pandas.isna e = false.
Proof.
  unfold workbook_entities. intros Hin. apply list_elem_of_In in Hin.
  apply in_flat_map in Hin as (sheet & _ & Hin).
  destruct (xls !! sheet) as [df|]; [|by destruct Hin].
  apply sheet_entities_shape with df. by apply list_elem_of_In.
Qed.

Lemma keep_first_subseteq idx seen (rs : list (list (Pandas.cell V))) e :
  e ∈ Pandas.keep_first idx seen rs -> e ∈ rs.
Proof.
  intros He. by eapply (sublist_subseteq _ _ (keep_first_sublist idx seen rs)).
Qed.

(** The rows of a loaded frame are entities of the workbook. *)
Lemma read_shops_rows (fs : FileSystem V) xlsx_path xls shops :
  fs !! xlsx_path = Some (Excel xls) ->
  unambiguous xls = true ->
  read_shops_from_excel fs xlsx_path = Ok shops ->
  Pandas.columns shops = CANONICAL_COLUMNS /\
  forall e, e ∈ Pandas.rows shops -> e ∈ workbook_entities xls.
Proof.
  intros Hfile Hunamb Hread.
  pose proof (read_shops_Ok_loadable _ _ _ _ Hfile Hunamb Hread) as Hload.
  rewrite (read_shops_from_excel_ok _ _ _ Hfile Hload) in Hread.
  injection Hread as <-. cbn [Pandas.columns Pandas.rows].
  split; [reflexivity|]. intros e. apply keep_first_subseteq.
Qed.

(** A sheet that is there without the four columns lacks one of them. *)
Lemma incomplete_sheet_missing_column (xls : Workbook V) :
  unambiguous xls = true ->
  forallb (fun sheet => match xls !! sheet with
                        | Some df => has_entity_columns df
                        | None => true
                        end) sheet_names = false ->
  exists sheet df label,
    sheet ∈ sheet_names /\ xls !! sheet = Some df /\
    label ∈ CANONICAL_COLUMNS /\ label ∉ renamed_columns df.
Proof.
  intros Hunamb Hcols.
  apply forallb_false_exists in Hcols as (sheet & Hsheet & Hbad).
  destruct (xls !! sheet) as [df|] eqn:Hdf; [|discriminate].
  apply forallb_false_exists in Hbad as (label & Hlabel & Hlen).
  apply Nat.eqb_neq in Hlen.
  unfold unambiguous in Hunamb. rewrite forallb_forall in Hunamb.
  specialize (Hunamb sheet (proj1 (list_elem_of_In _ _) Hsheet)).
  rewrite Hdf, forallb_forall in Hunamb.
  specialize (Hunamb label (proj1 (list_elem_of_In _ _) Hlabel)).
  apply Nat.leb_le in Hunamb.
  exists sheet, df, label. repeat split; try assumption.
  intros Hin. apply (positions_from_present 0) in Hin.
  unfold Pandas.positions in Hlen, Hunamb.
  destruct (Pandas.positions_from 0 label (renamed_columns df)) as [|i [|]];
    [done | by apply Hlen | cbn in Hunamb; lia].
Qed.

Lemma load_sheets_agree (xls1 xls2 : Workbook V) names acc :
  (forall sheet, sheet ∈ names -> xls1 !! sheet = xls2 !! sheet) ->
  load_sheets xls1 names acc = load_sheets xls2 names acc.
Proof.
  revert acc. induction names as [|sheet names IH]; intros acc Hagree; [reflexivity|].
  cbn [load_sheets]. rewrite (Hagree sheet) by (by left).
  destruct (xls2 !! sheet) as [df|].
  - destruct (load_sheet df) as [e|subset]; [reflexivity|]. cbn [result_bind].
    apply IH. intros s Hs. apply Hagree. by right.
  - apply IH. intros s Hs. apply Hagree. by right.
Qed.

End LoaderShape.

(** X6. What the loader does on a path, in full: a path that leads
    nowhere raises [FileNotFoundError]; a path at which [pd.ExcelFile]
    raises (a directory, a file that may not be read, a file that is no
    workbook) ends the loader with that exception; a workbook that opens
    (with unambiguous headers) loads when one of the three sheets is
    there and each one there has the four columns, raises [ValueError]
    when none of the three sheets is there, and raises [KeyError]
    otherwise, that is, when some sheet that is there lacks a column. *)
Theorem read_shops_outcome {V : Type} `{PyValue V}
    (fs : FileSystem V) (xlsx_path : string) :
  (fs !! xlsx_path = None ->
   read_shops_from_excel fs xlsx_path = Raise FileNotFoundError) /\
  (forall e,
     fs !! xlsx_path = Some (NotExcel e) ->
     read_shops_from_excel fs xlsx_path = Raise e) /\
  (forall xls,
     fs !! xlsx_path = Some (Excel xls) -> unambiguous xls = true ->
     read_shops_from_excel fs xlsx_path =
     if loadable xls then
       Ok {| Pandas.columns := CANONICAL_COLUMNS;
             Pandas.rows := Pandas.keep_first [1] [] (workbook_entities xls) |}
     else if some_sheet_present xls then Raise KeyError
     else Raise ValueError).
Proof.
  split; [|split].
  - intros Hnone. unfold read_shops_from_excel, ExcelFile. by rewrite Hnone.
  - intros e Hfile. unfold read_shops_from_excel, ExcelFile. by rewrite Hfile.
  - intros xls Hfile Hunamb.
    destruct (loadable xls) eqn:Hload; [by apply read_shops_from_excel_ok|].
    unfold some_sheet_present.
    destruct (existsb _ sheet_names) eqn:Hpresent.
    + unfold loadable in Hload. rewrite Hpresent in Hload. cbn [andb] in Hload.
      destruct (incomplete_sheet_missing_column xls Hunamb Hload)
        as (sheet & df & label & Hsheet & Hdf & Hlabel & Hmissing).
      by apply (read_shops_missing_column fs xlsx_path xls sheet df label).
    + by apply (read_shops_nothing_to_concat fs xlsx_path xls).
Qed.

Lemma read_shops_outcome_witness :
  read_shops_from_excel sample_fs "gone.xlsx" = Raise FileNotFoundError /\
  read_shops_from_excel sample_fs "notes.txt" = Raise ValueError /\
  read_shops_from_excel sample_fs "names.xlsx" = Raise KeyError /\
  read_shops_from_excel sample_fs "other.xlsx" = Raise ValueError.
Proof.
  split; [|split; [|split]].
  - apply (proj1 (read_shops_outcome sample_fs "gone.xlsx")). reflexivity.
  - apply (proj1 (proj2 (read_shops_outcome sample_fs "notes.txt"))). reflexivity.
  - rewrite (proj2 (proj2 (read_shops_outcome sample_fs "names.xlsx"))
               ({[ "All" := sheet_names_only ]} : Workbook string)).
    + reflexivity.
    + vm_compute. reflexivity.
    + vm_compute. reflexivity.
  - rewrite (proj2 (proj2 (read_shops_outcome sample_fs "other.xlsx"))
               ({[ "Sheet1" := sheet_all ]} : Workbook string)).
    + reflexivity.
    + vm_compute. reflexivity.
    + vm_compute. reflexivity.
Defined.

(** X7. On a workbook in which no sheet carries an entity column under
    both its source label and its canonical label, every row the loader
    returns has exactly the four entity fields, with at least one of
    them present, and is a row of one of the three sheets cut down to
    those fields; the frame has the four canonical columns and no
    other. *)
Theorem read_shops_row_shape {V : Type} `{PyValue V}
    (fs : FileSystem V) (xlsx_path : string) (xls : Workbook V) shops :
  fs !! xlsx_path = Some (Excel xls) ->
  unambiguous xls = true ->
  read_shops_from_excel fs xlsx_path = Ok shops ->
  Pandas.columns shops = CANONICAL_COLUMNS /\
  forall e, e ∈ Pandas.rows shops ->
    length e = 4 /\ (exists c, c ∈ e /\ c <> None) /\
    exists sheet df row,
      sheet ∈ sheet_names /\ xls !! sheet = Some df /\ row ∈ Pandas.rows df /\
      e = entity_of (renamed_columns df) row.
Proof.
  intros Hfile Hunamb Hread.
  destruct (read_shops_rows fs xlsx_path xls shops Hfile Hunamb Hread) as [Hcols Hrows].
  split; [exact Hcols|]. intros e He. apply Hrows in He.
  destruct (workbook_entities_shape xls e He) as [Hlen Hsome].
  split; [exact Hlen|]. split.
  - clear -Hsome. induction e as [|c e IH]; [discriminate|].
    cbn [forallb] in Hsome. destruct c as [v|].
    + exists (Some v). split; [by left | discriminate].
    + destruct (IH Hsome) as (c & Hc & Hne). exists c. split; [by right | exact Hne].
  - unfold workbook_entities in He. apply list_elem_of_In in He.
    apply in_flat_map in He as (sheet & Hsheet & He).
    destruct (xls !! sheet) as [df|] eqn:Hdf; [|by destruct He].
    apply list_elem_of_In in He. unfold sheet_entities in He.
    apply list_elem_of_filter in He as [_ He].
    apply list_elem_of_fmap in He as (row & -> & Hrow).
    exists sheet, df, row. repeat split; try assumption. by apply list_elem_of_In.
Qed.

Lemma read_shops_row_shape_witness :
  length mario_row = 4 /\ exists c, c ∈ mario_row /\ c <> None.
Proof.
  destruct (read_shops_row_shape sample_fs "Store Map.xlsx" store_map
              {| Pandas.columns := CANONICAL_COLUMNS;
                 Pandas.rows := [ tony_row;
                                  [Some "2"; Some "Luigi's"; Some "Salem"; Some "01970"];
                                  mario_row ] |})
    as [_ Hrows].
  - reflexivity.
  - vm_compute. reflexivity.
  - vm_compute. reflexivity.
  - destruct (Hrows mario_row) as (Hlen & Hsome & _); [|by split].
    cbn [Pandas.rows]. do 2 apply list_elem_of_further. apply list_elem_of_here.
Defined.

(** X8. The loader reads the sheets All, Multi Location Shops and OO
    Partners and nothing else: two workbooks that agree on these three
    give the same result, whatever other sheets they hold and whatever
    their paths. *)
Theorem read_shops_ignores_other_sheets {V : Type} `{PyValue V}
    (fs1 fs2 : FileSystem V) (path1 path2 : string) (xls1 xls2 : Workbook V) :
  fs1 !! path1 = Some (Excel xls1) ->
  fs2 !! path2 = Some (Excel xls2) ->
  (forall sheet, sheet ∈ sheet_names -> xls1 !! sheet = xls2 !! sheet) ->
  read_shops_from_excel fs1 path1 = read_shops_from_excel fs2 path2.
Proof.
  intros Hfile1 Hfile2 Hagree.
  unfold read_shops_from_excel, ExcelFile. rewrite Hfile1, Hfile2.
  unfold Ok. cbn [result_bind].
  by rewrite (load_sheets_agree xls1 xls2 sheet_names [] Hagree).
Qed.

Lemma read_shops_ignores_other_sheets_witness :
  read_shops_from_excel sample_fs "Store Map.xlsx" =
  read_shops_from_excel ({[ "copy.xlsx" := Excel store_map_with_notes ]} : FileSystem string)
                        "copy.xlsx".
Proof.
  apply (read_shops_ignores_other_sheets sample_fs
           ({[ "copy.xlsx" := Excel store_map_with_notes ]} : FileSystem string)
           "Store Map.xlsx" "copy.xlsx" store_map store_map_with_notes).
  - reflexivity.
  - reflexivity.
  - intros sheet Hsheet. unfold sheet_names in Hsheet.
    repeat (apply elem_of_cons in Hsheet as [->|Hsheet]; [vm_compute; reflexivity|]).
    by apply elem_of_nil in Hsheet.
Defined.

(* ===================================================================== *)
(** * Properties of whole runs *)
(* ===================================================================== *)

(** On a frame with the four canonical columns and rows of four cells,
    the fields read from each row are its cells. *)
Lemma iterrows_fields {V : Type} `{PyValue V} (df : Pandas.DataFrame V) :
  Pandas.columns df = CANONICAL_COLUMNS ->
  (forall e, e ∈ Pandas.rows df -> length e = 4) ->
  map (fun row => map (Pandas.get row) CANONICAL_COLUMNS) (Pandas.iterrows df) =
  map (map Pandas.Scalar) (Pandas.rows df).
Proof.
  intros Hcols Hlen. apply map_iterrows. intros i row Hrow.
  rewrite get_canonical by exact Hcols. cbn [Pandas.values].
  rewrite <- (map_map (Pandas.cell_at row) Pandas.Scalar).
  by rewrite cells_of_four by (eapply Hlen, list_elem_of_lookup_2, Hrow).
Qed.



(** X10. On a workbook in which no sheet carries an entity column under
    both its source label and its canonical label, the rows written by a
    completed run of either script are the loaded entities, one row per
    entity and in the same order, whatever the key and whatever the
    service answers: the four entity fields of the output rows are the
    cells of the rows of the loaded frame. *)
Theorem output_rows_are_the_entities {V : Type} `{PyValue V} `{Str.Lower}
    (urlparse_netloc : string -> option string) (open_w : string -> result unit)
    (svc : Service)
    env (fs : FileSystem V) input_file (xls : Workbook V) :
  fs !! input_file = Some (Excel xls) ->
  unambiguous xls = true ->
  (forall output_file s out s',
     ShopAnalysis.analyse_shops urlparse_netloc open_w svc env fs input_file output_file s
       = (Ok out, s') ->
     exists shops,
       read_shops_from_excel fs input_file = Ok shops /\
       map entity_fields (records out) = map (map Pandas.Scalar) (Pandas.rows shops)) /\
  (forall output_file messages_file s out s',
     ExtendedAnalysis.analyse_shops urlparse_netloc open_w svc env fs input_file
       output_file messages_file s = (Ok out, s') ->
     exists shops,
       read_shops_from_excel fs input_file = Ok shops /\
       map entity_fields (records (fst out)) =
         map (map Pandas.Scalar) (Pandas.rows shops)).
Proof.
  intros Hfile Hunamb.
  assert (forall shops, read_shops_from_excel fs input_file = Ok shops ->
            map (fun row => map (Pandas.get row) CANONICAL_COLUMNS)
                (Pandas.iterrows shops) =
            map (map Pandas.Scalar) (Pandas.rows shops)) as Hid.
  { intros shops Hread.
    destruct (read_shops_rows fs input_file xls shops Hfile Hunamb Hread) as [Hcols Hrows].
    apply iterrows_fields; [exact Hcols|]. intros e He.
    by apply (workbook_entities_shape xls), Hrows. }
  split.
  - intros output_file s out s' Hrun.
    destruct (analyse_shops_records _ _ _ _ _ _ _ _ _ _ Hrun)
      as (shops & Hread & _ & _ & Hrows).
    exists shops. split; [exact Hread|].
    by rewrite (write_rows_fields _ _ _ _ _ _ _ Hrows), (Hid shops Hread).
  - intros output_file messages_file s out s' Hrun.
    destruct (analyse_shops_ext_records _ _ _ _ _ _ _ _ _ _ _ Hrun)
      as (shops & Hread & _ & _ & Hrows & _).
    exists shops. split; [exact Hread|].
    by rewrite (write_rows_fields _ _ _ _ _ _ _ Hrows), (Hid shops Hread).
Qed.

Lemma output_rows_are_the_entities_witness :
  exists shops,
    read_shops_from_excel sample_fs "Store Map.xlsx" = Ok shops /\
    map (map Pandas.Scalar) (Pandas.rows shops) =
      map (map Pandas.Scalar) [ tony_row; luigi_row; mario_row ].
Proof.
  destruct (proj1 (output_rows_are_the_entities Urllib.netloc writable sample_service
                     env_with_key sample_fs "Store Map.xlsx" store_map
                     ltac:(vm_compute; reflexivity) ltac:(vm_compute; reflexivity))
              "results.csv"
              (fresh (0 : service_state sample_service))
              (match fst (ShopAnalysis.analyse_shops Urllib.netloc writable sample_service
                            env_with_key sample_fs "Store Map.xlsx" "results.csv"
                            (fresh (0 : service_state sample_service))) with
               | inr out => out
               | inl _ => {| header := []; records := [] |}
               end)
              (snd (ShopAnalysis.analyse_shops Urllib.netloc writable sample_service
                      env_with_key sample_fs "Store Map.xlsx" "results.csv"
                      (fresh (0 : service_state sample_service)))))
    as (shops & Hread & Hrows).
  - vm_compute. reflexivity.
  - exists shops. split; [exact Hread|]. rewrite <- Hrows. vm_compute. reflexivity.
Defined.

(** X11. Every row of a completed run of either script is consistent:
    HasWebsite says whether the website field is a non-empty string;
    DirectOrdering holds exactly when the note is empty; the note is the
    third-party note exactly when HasWebsite holds without
    DirectOrdering; and the note is one of the five texts of the code. *)
Theorem output_rows_consistent {V : Type} `{PyValue V} `{Str.Lower}
    (urlparse_netloc : string -> option string) (open_w : string -> result unit)
    (svc : Service)
    env (fs : FileSystem V) input_file output_file :
  (forall s out s' i r,
     ShopAnalysis.analyse_shops urlparse_netloc open_w svc env fs input_file output_file s
       = (Ok out, s') ->
     records out !! i = Some r -> row_consistent r) /\
  (forall messages_file s out s' i r,
     ExtendedAnalysis.analyse_shops urlparse_netloc open_w svc env fs input_file
       output_file messages_file s = (Ok out, s') ->
     records (fst out) !! i = Some r -> row_consistent r).
Proof.
  split.
  - intros s out s' i r Hrun Hr.
    destruct (analyse_shops_records _ _ _ _ _ _ _ _ _ _ Hrun)
      as (shops & _ & _ & _ & Hrows).
    eapply (Forall_lookup_elim row_consistent); [|exact Hr].
    eapply write_rows_Forall; [|exact Hrows].
    intros row s1 r1 s2. apply classify_shop_consistent.
  - intros messages_file s out s' i r Hrun Hr.
    destruct (analyse_shops_ext_records _ _ _ _ _ _ _ _ _ _ _ Hrun)
      as (shops & _ & _ & _ & Hrows & _).
    eapply (Forall_lookup_elim row_consistent); [|exact Hr].
    eapply write_rows_Forall; [|exact Hrows].
    intros row s1 r1 s2. apply classify_shop_consistent.
Qed.

Lemma output_rows_consistent_witness :
  row_consistent
    {| ShopID := Pandas.Scalar (Some "1");
       AccountName := Pandas.Scalar (Some "Tony's Pizza");
       BillingCity := Pandas.Scalar (Some "Boston");
       BillingZip := Pandas.Scalar (Some "02108");
       Website := Some "https://www.doordash.com/store/123";
       HasWebsite := true; DirectOrdering := false;
       Note := NOTE_THIRD_PARTY |}.
Proof.
  eapply (proj1 (output_rows_consistent Urllib.netloc writable sample_service
                   env_with_key sample_fs "Store Map.xlsx" "results.csv")
            (fresh (0 : service_state sample_service)) _ _ 0).
  - vm_compute. reflexivity.
  - reflexivity.
Defined.



(** X13. The message file exists exactly when a non-empty path was given
    for it, and then it is aligned with the classification file: same
    number of rows, and the i-th message carries the ShopID and
    AccountName of the i-th classification row and the template chosen by
    that row's two flags, composed with the account name as formatted in
    an f-string. *)
Theorem messages_aligned {V : Type} `{PyValue V} `{Str.Lower}
    (urlparse_netloc : string -> option string) (open_w : string -> result unit)
    (svc : Service)
    env (fs : FileSystem V) input_file output_file messages_file (s : run_state svc)
    classifications messages s' :
  ExtendedAnalysis.analyse_shops urlparse_netloc open_w svc env fs input_file
    output_file messages_file s = (Ok (classifications, messages), s') ->
  (Str.truthy messages_file = false -> messages = None) /\
  (Str.truthy messages_file = true ->
   exists file,
     messages = Some file /\ header file = MESSAGE_HEADER /\
     length (records file) = length (records classifications) /\
     forall i r, records classifications !! i = Some r ->
       exists m,
         records file !! i = Some m /\
         msg_ShopID m = ShopID r /\ msg_AccountName m = AccountName r /\
         {| subject := EmailSubject m; body := EmailBody m; sms := SmsBody m |} =
         generate_messages (format_got (AccountName r)) (HasWebsite r) (DirectOrdering r)).
Proof.
  intros Hrun.
  destruct (analyse_shops_ext_records _ _ _ _ _ _ _ _ _ _ _ Hrun)
    as (shops & _ & _ & _ & _ & Hmessages).
  cbn [fst snd] in Hmessages. subst messages. split.
  - by intros ->.
  - intros ->. eexists. split; [reflexivity|]. split; [reflexivity|].
    cbn [records]. split; [by rewrite length_map|].
    intros i r Hr. exists (ExtendedAnalysis.message_row r). split.
    + change (map ExtendedAnalysis.message_row (records classifications))
        with (ExtendedAnalysis.message_row <$> records classifications).
      by rewrite list_lookup_fmap, Hr.
    + unfold ExtendedAnalysis.message_row.
      cbn [msg_ShopID msg_AccountName EmailSubject EmailBody SmsBody].
      repeat split. by destruct (generate_messages _ _ _).
Qed.

Lemma messages_aligned_witness :
  exists classifications file s',
    ExtendedAnalysis.analyse_shops Urllib.netloc writable sample_service env_without_key
      sample_fs "Store Map.xlsx" "results.csv" (Some "messages.csv")
      (fresh (0 : service_state sample_service))
      = (Ok (classifications, Some file), s') /\
    length (records file) = length (records classifications).
Proof.
  destruct (ExtendedAnalysis.analyse_shops Urllib.netloc writable sample_service
              env_without_key sample_fs "Store Map.xlsx" "results.csv"
              (Some "messages.csv") (fresh (0 : service_state sample_service)))
    as [[e|[classifications messages]] s'] eqn:Hrun; [by vm_compute in Hrun|].
  destruct (messages_aligned Urllib.netloc writable sample_service env_without_key
              sample_fs "Store Map.xlsx" "results.csv" (Some "messages.csv")
              (fresh (0 : service_state sample_service))
              classifications messages s' Hrun) as [_ Hsome].
  destruct (Hsome eq_refl) as (file & -> & _ & Hlen & _).
  exists classifications, file, s'. split; [reflexivity | exact Hlen].
Defined.

(** X14. A workbook that does not load is fatal in both scripts: the run
    ends with the loader's exception, having made no request and no
    pause, the service untouched. *)
Theorem loader_failure_is_fatal {V : Type} `{PyValue V} `{Str.Lower}
    (urlparse_netloc : string -> option string) (open_w : string -> result unit)
    (svc : Service)
    env (fs : FileSystem V) input_file output_file messages_file (s : run_state svc) e :
  read_shops_from_excel fs input_file = Raise e ->
  let basic :=
    ShopAnalysis.analyse_shops urlparse_netloc open_w svc env fs input_file output_file s in
  let extended :=
    ExtendedAnalysis.analyse_shops urlparse_netloc open_w svc env fs input_file
      output_file messages_file s in
  (fst basic = Raise e /\ calls (snd basic) = calls s /\
   sleeps (snd basic) = sleeps s /\ remote (snd basic) = remote s) /\
  (fst extended = Raise e /\ calls (snd extended) = calls s /\
   sleeps (snd extended) = sleeps s /\ remote (snd extended) = remote s).
Proof.
  intros Hread. cbv zeta. rewrite analyse_shops_unfold, analyse_shops_ext_unfold.
  cbv zeta. rewrite Hread. unfold Raise at 1 3. cbn [fst snd].
  destruct (warn_if_no_key_effect svc (getenv env "GOOGLE_API_KEY") s)
    as (Hremote & Hcalls & Hsleeps).
  by repeat split.
Qed.

Lemma loader_failure_is_fatal_witness :
  fst (ShopAnalysis.analyse_shops Urllib.netloc writable sample_service env_with_key
         sample_fs "names.xlsx" "results.csv"
         (fresh (0 : service_state sample_service))) = Raise KeyError /\
  calls (snd (ExtendedAnalysis.analyse_shops Urllib.netloc writable sample_service
                env_with_key sample_fs "other.xlsx" "results.csv" None
                (fresh (0 : service_state sample_service)))) = [].
Proof.
  split.
  - apply (loader_failure_is_fatal Urllib.netloc writable sample_service env_with_key
             sample_fs "names.xlsx" "results.csv" None
             (fresh (0 : service_state sample_service)) KeyError).
    vm_compute. reflexivity.
  - apply (loader_failure_is_fatal Urllib.netloc writable sample_service env_with_key
             sample_fs "other.xlsx" "results.csv" None
             (fresh (0 : service_state sample_service)) ValueError).
    vm_compute. reflexivity.
Defined.

(** X15. The warning about the missing key is the only thing a run
    prints: it is printed once, before the workbook is read, exactly
    when the key is unset or empty, also when the workbook then fails to
    load, the output file to open, or the loop to complete. *)
Theorem warning_printed_iff_no_key {V : Type} `{PyValue V} `{Str.Lower}
    (urlparse_netloc : string -> option string) (open_w : string -> result unit)
    (svc : Service)
    env (fs : FileSystem V) input_file output_file (s : run_state svc) :
  stdout (snd (ShopAnalysis.analyse_shops urlparse_netloc open_w svc env fs input_file
                 output_file s)) =
  (stdout s ++
   if Str.truthy (getenv env "GOOGLE_API_KEY") then [] else [WARNING_NO_KEY])%list.
Proof.
  rewrite analyse_shops_unfold. cbv zeta.
  assert (stdout (snd (warn_if_no_key svc (getenv env "GOOGLE_API_KEY") s)) =
          (stdout s ++
           if Str.truthy (getenv env "GOOGLE_API_KEY") then [] else [WARNING_NO_KEY])%list)
    as Hwarn.
  { unfold warn_if_no_key. destruct (Str.truthy _); cbn; [by rewrite app_nil_r | done]. }
  destruct (read_shops_from_excel fs input_file) as [e|shops]; [exact Hwarn|].
  destruct (open_w output_file) as [e|f]; [exact Hwarn|].
  pose proof (write_rows_stdout urlparse_netloc svc (getenv env "GOOGLE_API_KEY")
                (Pandas.iterrows shops)
                (snd (warn_if_no_key svc (getenv env "GOOGLE_API_KEY") s))) as Hloop.
  destruct (ShopAnalysis.write_rows _ _ _ _ _) as [[e|rs] s1]; cbn [snd] in *;
    by rewrite Hloop.
Qed.

(** X17. A loaded frame with the BillingCity column twice (a sheet
    that carries the city under both its labels) stops an online run at
    its first row: [row.get] then yields a Series, the test
    [pd.notna(city)] has no truth value and raises [ValueError], before
    any request.  shop_analysis.py has opened its output file by then;
    extended_analysis.py has opened none.  Without a key the query is
    not built and the run is not stopped by it. *)
Theorem duplicated_city_stops_online_run {V : Type} `{PyValue V} `{Str.Lower}
    (urlparse_netloc : string -> option string) (open_w : string -> result unit)
    (svc : Service)
    env (fs : FileSystem V) input_file output_file messages_file (s : run_state svc)
    shops i j idx :
  read_shops_from_excel fs input_file = Ok shops ->
  Pandas.positions "BillingCity" (Pandas.columns shops) = i :: j :: idx ->
  Pandas.rows shops <> [] ->
  (Str.truthy (getenv env "GOOGLE_API_KEY") = true ->
   (open_w output_file = Ok tt ->
    ShopAnalysis.analyse_shops urlparse_netloc open_w svc env fs input_file output_file s
      = (Raise ValueError, s)) /\
   ExtendedAnalysis.analyse_shops urlparse_netloc open_w svc env fs input_file
     output_file messages_file s = (Raise ValueError, s)) /\
  (Str.truthy (getenv env "GOOGLE_API_KEY") = false ->
   open_w output_file = Ok tt ->
   exists out,
     fst (ShopAnalysis.analyse_shops urlparse_netloc open_w svc env fs input_file
            output_file s) = Ok out /\
     length (records out) = length (Pandas.rows shops)).
Proof.
  intros Hread Hpos Hrows. split.
  - intros Hkey.
    assert (ShopAnalysis.write_rows urlparse_netloc svc (getenv env "GOOGLE_API_KEY")
              (Pandas.iterrows shops) s = (Raise ValueError, s)) as Hloop.
    { unfold Pandas.iterrows. destruct (Pandas.rows shops) as [|row rows]; [done|].
      cbn [imap]. rewrite write_rows_cons.
      rewrite (classify_shop_unbuilt _ _ _ _ _ ValueError Hkey); [reflexivity|].
      by apply (shop_query_Series _ i j idx). }
    split.
    + intros Hopen. rewrite analyse_shops_unfold. cbv zeta.
      rewrite (warn_if_no_key_online _ _ _ Hkey), Hread, Hopen. unfold Ok.
      cbn [snd]. by rewrite Hloop.
    + rewrite analyse_shops_ext_unfold. cbv zeta.
      rewrite (warn_if_no_key_online _ _ _ Hkey), Hread. unfold Ok.
      cbn [snd]. by rewrite Hloop.
  - intros Hkey Hopen. rewrite analyse_shops_unfold. cbv zeta.
    rewrite Hread, Hopen. unfold Ok. cbv beta iota.
    rewrite (write_rows_offline _ _ _ _ _ Hkey). unfold Ok. cbn [fst].
    eexists. split; [reflexivity|]. cbn [records].
    by rewrite length_map, iterrows_length.
Qed.

Lemma duplicated_city_stops_online_run_witness :
  ShopAnalysis.analyse_shops Urllib.netloc writable sample_service env_with_key
    ambiguous_fs "cities.xlsx" "results.csv" (fresh (0 : service_state sample_service))
  = (Raise ValueError, fresh (0 : service_state sample_service)).
Proof.
  refine (proj1 (proj1 (duplicated_city_stops_online_run Urllib.netloc writable
                          sample_service env_with_key ambiguous_fs "cities.xlsx"
                          "results.csv" None (fresh (0 : service_state sample_service))
                          {| Pandas.columns := ["ShopID"; "AccountName"; "BillingCity";
                                                "BillingCity"; "BillingZip"];
                             Pandas.rows := [ [Some "1"; Some "Tony's Pizza";
                                               Some "Boston"; Some "Suffolk";
                                               Some "02108"] ] |}
                          2 3 [] _ _ _) _) _).
  - vm_compute. reflexivity.
  - reflexivity.
  - discriminate.
  - reflexivity.
  - reflexivity.
Defined.

(* ===================================================================== *)
(** * Entities with distinct names *)
(* ===================================================================== *)

Lemma keep_first_distinct {V : Type} `{PyValue V} idx seen
    (rs : list (list (Pandas.cell V))) :
  NoDup (map (Pandas.row_key idx) rs) ->
  (forall r, r ∈ rs -> Pandas.row_key idx r ∉ seen) ->
  Pandas.keep_first idx seen rs = rs.
Proof.
  revert seen. induction rs as [|r rs IH]; intros seen Hnd Hseen; [reflexivity|].
  cbn [map] in Hnd. apply NoDup_cons in Hnd as [Hr Hnd].
  cbn [Pandas.keep_first].
  rewrite bool_decide_eq_false_2 by (apply Hseen; by left).
  f_equal. apply IH; [exact Hnd|].
  intros x Hx [Heq|Hin]%elem_of_cons.
  - apply Hr. rewrite <- Heq. apply list_elem_of_fmap. by exists x.
  - apply (Hseen x); [by right | exact Hin].
Qed.

(** X16. The loader loses an entity only to a repeated name: when the
    display names of the sheets' entities are pairwise different (at most
    one of them missing), the loaded frame holds every entity of the three
    sheets, in order. *)
Theorem read_shops_keeps_distinct_names {V : Type} `{PyValue V}
    (fs : FileSystem V) (xlsx_path : string) (xls : Workbook V) :
  fs !! xlsx_path = Some (Excel xls) ->
  loadable xls = true ->
  NoDup (map display_name (workbook_entities xls)) ->
  read_shops_from_excel fs xlsx_path =
  Ok {| Pandas.columns := CANONICAL_COLUMNS; Pandas.rows := workbook_entities xls |}.
Proof.
  intros Hfile Hload Hnd.
  rewrite (read_shops_from_excel_ok fs xlsx_path xls Hfile Hload).
  assert (NoDup (map (Pandas.row_key [1]) (workbook_entities xls))) as Hkeys.
  { rewrite (map_ext _ (fun e => (fun c : Pandas.cell V => [c]) (display_name e)))
      by reflexivity.
    rewrite <- (map_map display_name (fun c : Pandas.cell V => [c])).
    assert (Inj eq eq (fun c : Pandas.cell V => [c])) as Hinj
      by (by intros c1 c2 [= ->]).
    by apply (NoDup_fmap_2 (fun c : Pandas.cell V => [c])). }
  rewrite (keep_first_distinct [1] [] (workbook_entities xls) Hkeys); [reflexivity|].
  by intros r _ ?%elem_of_nil.
Qed.

Lemma read_shops_keeps_distinct_names_witness :
  read_shops_from_excel
    ({[ "partners.xlsx" := Excel ({[ "OO Partners" := sheet_partners ]} : Workbook string) ]}
       : FileSystem string) "partners.xlsx" =
  Ok {| Pandas.columns := CANONICAL_COLUMNS;
        Pandas.rows := [ [Some "9"; Some "Luigi's"; Some "Salem"; Some "01970"];
                         mario_row ] |}.
Proof.
  rewrite (read_shops_keeps_distinct_names
             ({[ "partners.xlsx" := Excel ({[ "OO Partners" := sheet_partners ]} : Workbook string) ]}
                : FileSystem string) "partners.xlsx"
             ({[ "OO Partners" := sheet_partners ]} : Workbook string)).
  - vm_compute. reflexivity.
  - reflexivity.
  - vm_compute. reflexivity.
  - vm_compute. repeat constructor; rewrite ?elem_of_cons, ?elem_of_nil; intuition discriminate.
Defined.
